(** * GAN - Synthetic data generator
    A shallow embedding of [gan_synthetic_data_generator.py]: the two
    NumPy synthesizers, the GAN training loop, the VAE loss and the ARIMA
    baseline, with the properties of the design description proved on it.

    Numbers.  NumPy and Keras compute on IEEE-754 binary floating point.
    The embedding keeps the four classes of IEEE values (finite, the two
    infinities, not-a-number) and the rules by which the special values
    arise and propagate; on finite values the arithmetic is exact: rounding
    and overflow to infinity are not part of the model. *)

From Stdlib Require Import Reals Lra ZArith List Lia Bool.
From stdpp Require Import gmap list.
Import ListNotations.

Local Open Scope Z_scope.

(** ** Errors *)

(** The exceptions the modelled calls can raise. *)
Inductive exn :=
| ValueError        (* NumPy / Keras: bad argument, bad shape *)
| IndexError        (* Python: sequence index out of range *)
| AttributeError    (* Python: the object has no such attribute *)
| FittingFailure.   (* statsmodels: the ARIMA fit did not succeed *)

Inductive result (A : Type) :=
| Ok (a : A)
| Raise (e : exn).
Arguments Ok {A} a.
Arguments Raise {A} e.

#[global] Instance result_ret : MRet result := fun _ a => Ok a.
#[global] Instance result_bind : MBind result := fun _ _ k r =>
  match r with
  | Ok a => k a
  | Raise e => Raise e
  end.

Definition raises {A} (r : result A) : Prop :=
  match r with Ok _ => False | Raise _ => True end.

(** ** Floating-point values *)

Module Float.

Inductive fp :=
| Finite (r : R)
| PInf
| NInf
| NaN.

Definition is_finite (x : fp) : bool :=
  match x with Finite _ => true | _ => false end.

Definition of_Z (z : Z) : fp := Finite (IZR z).
Definition of_nat (n : nat) : fp := Finite (INR n).

Definition neg (x : fp) : fp :=
  match x with
  | Finite r => Finite (- r)
  | PInf => NInf
  | NInf => PInf
  | NaN => NaN
  end.

(** An infinity of sign [s] ([true]: positive) multiplied by the finite [r]. *)
Definition scale_inf (s : bool) (r : R) : fp :=
  if Req_dec_T r 0 then NaN
  else if Rlt_dec 0 r then (if s then PInf else NInf)
  else (if s then NInf else PInf).

(** The sum of two finite values is their exact sum: it is neither rounded
    nor turned into an infinity when it is large. *)
Definition add (x y : fp) : fp :=
  match x, y with
  | NaN, _ | _, NaN => NaN
  | Finite a, Finite b => Finite (a + b)
  | PInf, NInf | NInf, PInf => NaN
  | PInf, _ | _, PInf => PInf
  | NInf, _ | _, NInf => NInf
  end.

Definition sub (x y : fp) : fp := add x (neg y).

Definition mul (x y : fp) : fp :=
  match x, y with
  | NaN, _ | _, NaN => NaN
  | Finite a, Finite b => Finite (a * b)
  | Finite a, PInf | PInf, Finite a => scale_inf true a
  | Finite a, NInf | NInf, Finite a => scale_inf false a
  | PInf, PInf | NInf, NInf => PInf
  | PInf, NInf | NInf, PInf => NInf
  end.

Definition div (x y : fp) : fp :=
  match x, y with
  | NaN, _ | _, NaN => NaN
  | Finite a, Finite b =>
      if Req_dec_T b 0 then scale_inf true a else Finite (a / b)
  | Finite _, _ => Finite 0
  | PInf, Finite b => if Rlt_dec b 0 then NInf else PInf
  | NInf, Finite b => if Rlt_dec b 0 then PInf else NInf
  | _, _ => NaN
  end.

Definition sin (x : fp) : fp :=
  match x with
  | Finite r => Finite (Rtrigo_def.sin r)
  | _ => NaN
  end.

(** The exponential of a finite value is its exact exponential: it does
    not overflow to [+inf] as the IEEE exponential of a large argument does.
    What is proved with it is the algebraic form of a result, not that the
    value a machine computes is finite. *)
Definition exp (x : fp) : fp :=
  match x with
  | Finite r => Finite (Rtrigo_def.exp r)
  | PInf => PInf
  | NInf => Finite 0
  | NaN => NaN
  end.

Definition square (x : fp) : fp := mul x x.

Definition sum (l : list fp) : fp := fold_right add (Finite 0) l.

End Float.

Import Float.

(** ** NumPy arrays *)

Module Np.

(** An n-dimensional array: its shape and its elements in row-major order. *)
Record ndarray := { shape : list nat; data : list fp }.

Definition count (shp : list nat) : nat := fold_right Nat.mul 1%nat shp.

Definition well_formed (a : ndarray) : Prop :=
  length (data a) = count (shape a).

(** Position of the element of index [idx] in the row-major data, if the
    index is within the shape. *)
Fixpoint ravel (shp idx : list nat) : option nat :=
  match shp, idx with
  | [], [] => Some 0%nat
  | d :: shp', i :: idx' =>
      if (i <? d)%nat
      then option_map (fun r => (i * count shp' + r)%nat) (ravel shp' idx')
      else None
  | _, _ => None
  end.

Definition item (a : ndarray) (idx : list nat) : option fp :=
  match ravel (shape a) idx with
  | Some k => nth_error (data a) k
  | None => None
  end.

(** A tuple of Python integers used as a shape: negative dimensions are
    refused. *)
Definition as_shape (dims : list Z) : result (list nat) :=
  if existsb (fun d => d <? 0) dims then Raise ValueError
  else Ok (map Z.to_nat dims).

Definition full (v : fp) (dims : list Z) : result ndarray :=
  shp ← as_shape dims;
  Ok {| shape := shp; data := repeat v (count shp) |}.

Definition ones := full (Finite 1).
Definition zeros := full (Finite 0).

(** [np.array([v] * n)]: a Python list repeated [n] times is empty for
    [n <= 0]. *)
Definition array_repeat (v : fp) (n : Z) : ndarray :=
  {| shape := [Z.to_nat n]; data := repeat v (Z.to_nat n) |}.

(** [np.linspace(start, stop, num)], end point included: [num] samples
    [start + i * step] with [step = (stop - start) / (num - 1)]; the
    division is only made when [num - 1 > 0]. *)
Definition linspace (start stop : fp) (num : Z) : result ndarray :=
  if num <? 0 then Raise ValueError
  else
    let n := Z.to_nat num in
    let divisor := num - 1 in
    let delta := Float.sub stop start in
    let y := map of_nat (seq 0 n) in
    let y := if 0 <? divisor
             then let step := Float.div delta (of_Z divisor) in
                  map (fun v => Float.mul v step) y
             else map (fun v => Float.mul v delta) y in
    Ok {| shape := [n]; data := map (fun v => Float.add v start) y |}.

(** [a.reshape(dims)]: one dimension may be [-1] and is then inferred; the
    element count must be kept. *)
Definition reshape (a : ndarray) (dims : list Z) : result ndarray :=
  let known := List.filter (fun d => negb (d =? -1)) dims in
  let total := length (data a) in
  if existsb (fun d => d <? 0) known then Raise ValueError
  else
    let p := count (map Z.to_nat known) in
    match (length dims - length known)%nat with
    | O => if (p =? total)%nat
           then Ok {| shape := map Z.to_nat dims; data := data a |}
           else Raise ValueError
    | S O => if negb (p =? 0)%nat && (total mod p =? 0)%nat
             then Ok {| shape := map (fun d => if d =? -1 then (total / p)%nat
                                               else Z.to_nat d) dims;
                        data := data a |}
             else Raise ValueError
    | _ => Raise ValueError
    end.

Definition flatten (a : ndarray) : ndarray :=
  {| shape := [length (data a)]; data := data a |}.

(** Element-wise functions and array-with-scalar arithmetic. *)
Definition map1 (f : fp -> fp) (a : ndarray) : ndarray :=
  {| shape := shape a; data := map f (data a) |}.

Definition sin := map1 Float.sin.
Definition scalar_mul (c : fp) := map1 (Float.mul c).
Definition scalar_add (c : fp) := map1 (Float.add c).

(** Element-wise arithmetic on two arrays.  Every pair of arrays the
    program combines has one shape; broadcasting between different shapes
    is not needed and such a pair is refused. *)
Definition map2 (f : fp -> fp -> fp) (a b : ndarray) : result ndarray :=
  if decide (shape a = shape b)
  then Ok {| shape := shape a;
             data := List.map (fun p => f (fst p) (snd p))
                              (combine (data a) (data b)) |}
  else Raise ValueError.

Definition add := map2 Float.add.
Definition mul := map2 Float.mul.

(** *** The global random source

    [np.random] is a process-wide generator.  Its state is the stream of
    standard normal deviates it has yet to hand out; every deviate is a
    finite number. *)
Definition rng := nat -> R.

Definition draw (n : nat) (g : rng) : list R := List.map g (seq 0 n).
Definition advance (n : nat) (g : rng) : rng := fun i => g (n + i)%nat.

(** [np.random.normal(loc, scale, size)]: [loc + scale * z] per element. *)
Definition random_normal (loc scale : R) (shp : list nat) (g : rng)
  : ndarray * rng :=
  let n := count shp in
  ({| shape := shp;
      data := List.map (fun z => Finite (loc + scale * z)) (draw n g) |},
   advance n g).

(** [np.random.normal(loc, scale, size)] with a tuple of Python integers. *)
Definition random_normal_dims (loc scale : R) (dims : list Z) (g : rng)
  : result (ndarray * rng) :=
  shp ← as_shape dims;
  Ok (random_normal loc scale shp g).

(** [np.random.randn(d0, ..., dn)]: standard normal deviates. *)
Definition randn (shp : list nat) (g : rng) : ndarray * rng :=
  let n := count shp in
  ({| shape := shp; data := List.map Finite (draw n g) |}, advance n g).

End Np.

(** ** The two synthesizers *)

(** [generate_real_data(n_samples)] *)
Definition generate_real_data (n_samples : Z) (g : Np.rng)
  : result (Np.ndarray * Np.rng) :=
  X0 ← Np.linspace (Finite 0) (Finite 100) (n_samples * 30);
  X ← Np.reshape X0 [n_samples; 30; 1];
  let '(noise, g') := Np.random_normal 0 0.5 (Np.shape X) g in
  y ← Np.add (Np.sin X) noise;
  Ok (y, g').

(** [generate_rule_based_data(n_samples)] *)
Definition generate_rule_based_data (n_samples : Z) (g : Np.rng)
  : result (Np.ndarray * Np.rng) :=
  X0 ← Np.linspace (Finite 0) (Finite 100) (n_samples * 30);
  X ← Np.reshape X0 [n_samples; 30; 1];
  let '(z, g') := Np.randn (Np.shape X) g in
  y ← Np.mul (Np.sin X) (Np.scalar_add (Finite 1) (Np.scalar_mul (Finite 0.1) z));
  Ok (y, g').

(** The [k]-th point of the ramp of [n_samples * 30] evenly spaced points
    over [0, 100]. *)
Definition ramp (n_samples : Z) (k : nat) : R :=
  (INR k * (100 / IZR (n_samples * 30 - 1)))%R.

(** ** Keras models

    A symbolic Keras tensor is represented by its shape, batch dimension
    first.  A layer owns weight variables; the values of all variables of
    the process live in one store, so that a model embedded in another
    model shares its weights with it. *)

Module Keras.

Definition var := nat.
Definition tshape := list nat.

Inductive activation := linear | sigmoid.

Inductive layer_config :=
| LSTM (units : nat) (return_sequences : bool)
| Dense (units : nat) (act : option activation)
| Reshape (target_shape : list nat)
| RepeatVector (n : nat)
| TimeDistributed (inner : layer_config).

(** Number of weight variables a layer creates: kernel, recurrent kernel
    and bias for an LSTM, kernel and bias for a dense layer. *)
Fixpoint variables_of (c : layer_config) : nat :=
  match c with
  | LSTM _ _ => 3
  | Dense _ _ => 2
  | Reshape _ => 0
  | RepeatVector _ => 0
  | TimeDistributed inner => variables_of inner
  end.

(** Shape of the output of a layer on an input of shape [s]; an input of
    the wrong rank or size is refused. *)
Fixpoint output_shape (c : layer_config) (s : tshape) : result tshape :=
  match c with
  | LSTM units return_sequences =>
      match s with
      | [b; t; _] => Ok (if return_sequences then [b; t; units] else [b; units])
      | _ => Raise ValueError
      end
  | Dense units _ =>
      match s with
      | [] | [_] => Raise ValueError
      | _ => Ok (removelast s ++ [units])
      end
  | Reshape target =>
      match s with
      | b :: rest =>
          if (Np.count rest =? Np.count target)%nat then Ok (b :: target)
          else Raise ValueError
      | [] => Raise ValueError
      end
  | RepeatVector n =>
      match s with
      | [b; d] => Ok [b; n; d]
      | _ => Raise ValueError
      end
  | TimeDistributed inner =>
      match s with
      | b :: t :: rest =>
          out ← output_shape inner (b :: rest);
          match out with
          | b' :: o => Ok (b' :: t :: o)
          | [] => Raise ValueError
          end
      | _ => Raise ValueError
      end
  end.

(** A layer object.  A [Model] is itself a layer: it holds the layers it
    was built from and the computation from its inputs to its outputs. *)
#[warnings="-register-all"] Inductive layer :=
| Layer (config : layer_config) (weights : list var) (trainable : bool)
| Lambda (function : list tshape -> result (list tshape))
| Model (layers : list layer) (call : list tshape -> result (list tshape))
        (trainable : bool).

(** [layers.Input(shape=...)]: a model takes one tensor, of that shape
    after the batch dimension. *)
Definition Input (shape : list nat) (args : list tshape) : result tshape :=
  match args with
  | [(b :: rest) as x] =>
      if decide (rest = shape) then Ok x else Raise ValueError
  | _ => Raise ValueError
  end.

(** Calling a layer on tensors. *)
Definition apply (l : layer) (args : list tshape) : result (list tshape) :=
  match l with
  | Layer config _ _ =>
      match args with
      | [x] => out ← output_shape config x; Ok [out]
      | _ => Raise ValueError
      end
  | Lambda function => function args
  | Model _ call _ => call args
  end.

(** Calling a layer with one input and one output. *)
Definition apply1 (l : layer) (x : tshape) : result tshape :=
  outs ← apply l [x];
  match outs with
  | [out] => Ok out
  | _ => Raise ValueError
  end.

(** [layer.weights] *)
Fixpoint weights (l : layer) : list var :=
  match l with
  | Layer _ ws _ => ws
  | Lambda _ => []
  | Model ls _ _ => flat_map weights ls
  end.

(** [layer.trainable_weights]: nothing below a layer that is not
    trainable. *)
Fixpoint trainable_weights (l : layer) : list var :=
  match l with
  | Layer _ ws trainable => if trainable then ws else []
  | Lambda _ => []
  | Model ls _ trainable =>
      if trainable then flat_map trainable_weights ls else []
  end.

(** [layer.trainable = value]: on a model, the flag of every layer below
    it is set too. *)
Fixpoint set_trainable (value : bool) (l : layer) : layer :=
  match l with
  | Layer config ws _ => Layer config ws value
  | Lambda function => Lambda function
  | Model ls call _ => Model (List.map (set_trainable value) ls) call value
  end.

(** *** Creating layers

    Every layer constructor creates fresh variables; the state of the
    construction is the next unused variable. *)
Definition build (A : Type) := var -> A * var.

#[global] Instance build_ret : MRet build := fun _ a next => (a, next).
#[global] Instance build_bind : MBind build := fun _ _ k m next =>
  let '(a, next') := m next in k a next'.

Definition new_layer (config : layer_config) : build layer :=
  fun next =>
    let n := variables_of config in
    (Layer config (seq next n) true, (next + n)%nat).

(** *** Compiled models *)

Inductive optimizer_name := adam.
Inductive loss_name := binary_crossentropy.
Inductive metric_name := accuracy.

(** [model.compile(...)].  In TensorFlow 2 a compiled model is trained
    with the trainable flags it had when it was compiled, whatever is
    assigned to them later: [net] is the model as it was at that time. *)
Record compiled := {
  net : layer;
  optimizer : optimizer_name;
  loss : option loss_name;
  metrics : list metric_name
}.

Definition compile (m : layer) (o : optimizer_name) (l : option loss_name)
    (ms : list metric_name) : compiled :=
  {| net := m; optimizer := o; loss := l; metrics := ms |}.

(** *** The numerical back end

    Forward evaluation, losses, gradients and the Adam update are the
    framework's: they are taken as given, for any implementation. *)
Record step_result (tensor optimizer_state : Type) := {
  new_value : var -> tensor;
  new_optimizer_state : optimizer_state;
  loss_value : fp;
  metric_value : metric_name -> fp
}.
Arguments new_value {tensor optimizer_state}.
Arguments new_optimizer_state {tensor optimizer_state}.
Arguments loss_value {tensor optimizer_state}.
Arguments metric_value {tensor optimizer_state}.

Class Backend := {
  tensor : Type;
  optimizer_state : Type;
  (** the output of a model on a batch, with the given variable values *)
  forward : layer -> gmap var tensor -> Np.ndarray -> Np.ndarray;
  (** one optimizer step of a compiled model on a batch [x] with targets
      [y]: the value the step gives to each variable it may write, the
      optimizer's new state, the loss and the metrics of the batch *)
  optimizer_step : compiled -> gmap var tensor -> optimizer_state ->
                   Np.ndarray -> Np.ndarray ->
                   step_result tensor optimizer_state
}.

Section Training.
Context `{Backend}.

(** [model.predict(x)] *)
Definition predict (m : layer) (store : gmap var tensor) (x : Np.ndarray)
  : Np.ndarray :=
  forward m store x.

(** [model.train_on_batch(x, y)]: one optimizer step, written to the
    trainable weights of the compiled model; returns the loss followed by
    the metrics (the loss alone when there are no metrics).  The layers of
    this program keep no state that is updated outside the optimizer. *)
Definition train_on_batch (c : compiled) (x y : Np.ndarray)
    (store : gmap var tensor) (o : optimizer_state)
  : gmap var tensor * optimizer_state * list fp :=
  let r := optimizer_step c store o x y in
  (foldr (fun v s => <[v := new_value r v]> s) store (trainable_weights (net c)),
   new_optimizer_state r,
   loss_value r :: List.map (metric_value r) (metrics c)).

End Training.

End Keras.

(** ** The GAN *)

Module Gan.
Import Keras.

(** [build_generator()] *)
Definition build_generator : build layer :=
  lstm ← new_layer (LSTM 100 true);
  lstm_1 ← new_layer (LSTM 50 false);
  dense ← new_layer (Dense 30 (Some linear));
  reshape ← new_layer (Reshape [30; 1]%nat);
  mret (Model [lstm; lstm_1; dense; reshape]
          (fun args =>
             inputs ← Input [30; 1]%nat args;
             x ← apply1 lstm inputs;
             x ← apply1 lstm_1 x;
             x ← apply1 dense x;
             outputs ← apply1 reshape x;
             Ok [outputs])
          true).

(** [build_discriminator()] *)
Definition build_discriminator : build layer :=
  lstm ← new_layer (LSTM 50 true);
  lstm_1 ← new_layer (LSTM 50 false);
  dense ← new_layer (Dense 1 (Some sigmoid));
  mret (Model [lstm; lstm_1; dense]
          (fun args =>
             inputs ← Input [30; 1]%nat args;
             x ← apply1 lstm inputs;
             x ← apply1 lstm_1 x;
             outputs ← apply1 dense x;
             Ok [outputs])
          true).

(** The three objects the module creates before training: the generator,
    the compiled discriminator, and the compiled combined model.  The
    combined model is built after [discriminator.trainable = False] and
    holds the discriminator itself, not a copy: the two share their
    variables. *)
Record models := {
  generator : layer;
  discriminator : compiled;
  gan : compiled
}.

Definition setup : build models :=
  generator ← build_generator;
  discriminator ← build_discriminator;
  let discriminator_compiled :=
    compile discriminator adam (Some binary_crossentropy) [accuracy] in
  let discriminator := set_trainable false discriminator in
  let gan :=
    Model [generator; discriminator]
      (fun args =>
         gan_input ← Input [30; 1]%nat args;
         fake ← apply generator [gan_input];
         apply discriminator fake)
      true in
  mret {| generator := generator;
          discriminator := discriminator_compiled;
          gan := compile gan adam (Some binary_crossentropy) [] |}.

(** The objects of a fresh process. *)
Definition the_models : models := fst (setup 0%nat).

(** *** Training *)

(** A call of the framework made by the training loop, with its
    arguments. *)
Inductive call :=
| GeneratorPredict (x : Np.ndarray)
| DiscriminatorTrain (x y : Np.ndarray)
| GanTrain (x y : Np.ndarray).

(** A progress line: [epoch], [d_loss[0]], [100 * d_loss[1]], [g_loss]. *)
Record progress := {
  p_epoch : Z;
  p_d_loss : fp;
  p_d_acc_percent : fp;
  p_g_loss : list fp
}.

Section Loop.
Context `{Backend}.

(** What the loop reads and writes: the variables of the models, the state
    of the two optimizers, NumPy's random source, the console, and the log
    of the framework calls made so far. *)
Record session := {
  store : gmap var tensor;
  d_optimizer : optimizer_state;
  gan_optimizer : optimizer_state;
  np_random : Np.rng;
  stdout : list progress;
  calls : list call
}.

(** [seq[i]] on a Python list. *)
Definition index (l : list fp) (i : nat) : result fp :=
  match nth_error l i with
  | Some v => Ok v
  | None => Raise IndexError
  end.

(** The body of the loop of [train_gan], for one value of [epoch]. *)
Definition train_gan_epoch (generator : layer) (discriminator gan : compiled)
    (batch_size : Z) (epoch : Z) (s : session) : result session :=
  (* Generate real and fake data *)
  '(real_data, g) ← generate_real_data batch_size (np_random s);
  '(noise, g) ← Np.random_normal_dims 0 1 [batch_size; 30; 1] g;
  let fake_data := predict generator (store s) noise in
  (* Train discriminator *)
  ones ← Np.ones [batch_size; 1];
  let '(st, d_opt, d_loss_real) :=
    train_on_batch discriminator real_data ones (store s) (d_optimizer s) in
  zeros ← Np.zeros [batch_size; 1];
  let '(st, d_opt, d_loss_fake) :=
    train_on_batch discriminator fake_data zeros st d_opt in
  let d_loss :=
    List.map (Float.mul (Finite 0.5))
             (zip_with Float.add d_loss_real d_loss_fake) in
  (* Train generator *)
  '(noise2, g) ← Np.random_normal_dims 0 1 [batch_size; 30; 1] g;
  let valid_y := Np.array_repeat (Finite 1) batch_size in
  let '(st, gan_opt, g_loss) :=
    train_on_batch gan noise2 valid_y st (gan_optimizer s) in
  (* Print the progress *)
  out ← (if epoch mod 100 =? 0
         then d0 ← index d_loss 0;
              d1 ← index d_loss 1;
              Ok (stdout s ++ [{| p_epoch := epoch;
                                  p_d_loss := d0;
                                  p_d_acc_percent := Float.mul (Finite 100) d1;
                                  p_g_loss := g_loss |}])
         else Ok (stdout s));
  Ok {| store := st;
        d_optimizer := d_opt;
        gan_optimizer := gan_opt;
        np_random := g;
        stdout := out;
        calls := calls s ++ [GeneratorPredict noise;
                             DiscriminatorTrain real_data ones;
                             DiscriminatorTrain fake_data zeros;
                             GanTrain noise2 valid_y] |}.

(** [range(n)] *)
Definition range (n : Z) : list Z := List.map Z.of_nat (seq 0 (Z.to_nat n)).

(** [for x in xs: body], an exception ending the loop. *)
Fixpoint for_each {S : Type} (body : Z -> S -> result S) (xs : list Z) (s : S)
  : result S :=
  match xs with
  | [] => Ok s
  | x :: xs' => s' ← body x s; for_each body xs' s'
  end.

(** [train_gan(generator, discriminator, gan, epochs, batch_size)] *)
Definition train_gan (generator : layer) (discriminator gan : compiled)
    (epochs batch_size : Z) (s : session) : result session :=
  for_each (train_gan_epoch generator discriminator gan batch_size)
           (range epochs) s.

(** [train_gan(generator, discriminator, gan)], with the default
    [epochs=1000, batch_size=32]. *)
Definition train_gan_default (generator : layer) (discriminator gan : compiled)
  : session -> result session :=
  train_gan generator discriminator gan 1000 32.

(** Number of updates of the combined model in a log of calls. *)
Definition gan_updates (cs : list call) : nat :=
  length (List.filter (fun c => match c with GanTrain _ _ => true | _ => false end) cs).

Definition discriminator_updates (cs : list call) : nat :=
  length (List.filter (fun c => match c with DiscriminatorTrain _ _ => true | _ => false end) cs).

End Loop.

End Gan.

(** ** The VAE *)

Module Vae.
Import Keras.

(** A Python tuple of two integers used as a shape, such as
    [input_shape = (30, 1)]. *)
Definition shape_of (t : nat * nat) : list nat := [t.1; t.2].

(** [build_encoder(input_shape, latent_dim)] *)
Definition build_encoder (input_shape : nat * nat) (latent_dim : nat)
  : build layer :=
  lstm ← new_layer (LSTM 50 true);
  lstm_1 ← new_layer (LSTM 50 false);
  dense_mean ← new_layer (Dense latent_dim None);
  dense_log_var ← new_layer (Dense latent_dim None);
  mret (Model [lstm; lstm_1; dense_mean; dense_log_var]
          (fun args =>
             inputs ← Input (shape_of input_shape) args;
             x ← apply1 lstm inputs;
             x ← apply1 lstm_1 x;
             z_mean ← apply1 dense_mean x;
             z_log_var ← apply1 dense_log_var x;
             Ok [z_mean; z_log_var])
          true).

(** Shape of the result of an element-wise operation on two tensors; the
    tensors combined in [sampling] have one shape. *)
Definition elementwise (a b : tshape) : result tshape :=
  if decide (a = b) then Ok a else Raise ValueError.

(** [sampling(args)]: [z_mean + exp(0.5 * z_log_var) * epsilon], with
    [epsilon] of shape [(batch, dim)] taken from [z_mean]. *)
Definition sampling (args : list tshape) : result (list tshape) :=
  match args with
  | [z_mean; z_log_var] =>
      match z_mean with
      | batch :: dim :: _ =>
          let epsilon := [batch; dim] in
          scaled ← elementwise z_log_var epsilon;
          z ← elementwise z_mean scaled;
          Ok [z]
      | _ => Raise IndexError
      end
  | _ => Raise ValueError
  end.

(** [build_decoder(latent_dim, output_shape)] *)
Definition build_decoder (latent_dim : nat) (output_shape : nat * nat)
  : build layer :=
  dense ← new_layer (Dense 50 None);
  repeat_vector ← new_layer (RepeatVector output_shape.1);
  lstm ← new_layer (LSTM 50 true);
  time_distributed ← new_layer (TimeDistributed (Dense output_shape.2 None));
  mret (Model [dense; repeat_vector; lstm; time_distributed]
          (fun args =>
             inputs ← Input [latent_dim] args;
             x ← apply1 dense inputs;
             x ← apply1 repeat_vector x;
             x ← apply1 lstm x;
             x ← apply1 time_distributed x;
             Ok [x])
          true).

Definition input_shape : nat * nat := (30, 1)%nat.
Definition latent_dim : nat := 10.

Record models := {
  encoder : layer;
  decoder : layer;
  vae : compiled
}.

(** The model definition: the encoder, the sampling layer and the decoder
    in a row.  The model is compiled with an optimizer and no loss. *)
Definition setup : build models :=
  encoder ← build_encoder input_shape latent_dim;
  decoder ← build_decoder latent_dim input_shape;
  let lambda := Lambda sampling in
  let vae :=
    Model [encoder; lambda; decoder]
      (fun args =>
         inputs ← Input (shape_of input_shape) args;
         encoded ← apply encoder [inputs];
         match encoded with
         | [z_mean; z_log_var] =>
             z ← apply lambda [z_mean; z_log_var];
             apply decoder z
         | _ => Raise ValueError
         end)
      true in
  mret {| encoder := encoder;
          decoder := decoder;
          vae := compile vae adam None [] |}.

(** The objects of the module; the variables of the GAN come first. *)
Definition the_models : models := fst (setup (snd (Gan.setup 0%nat))).

(** The composition [encoder(decoder(encoder(x)))], each model called on
    what the previous one returns. *)
Definition encoder_decoder_encoder (x : tshape) : result (list tshape) :=
  encoded ← apply (encoder the_models) [x];
  decoded ← apply (decoder the_models) encoded;
  apply (encoder the_models) decoded.

(** The same with the decoder given the first output of the encoder. *)
Definition encoder_decoder_mean_encoder (x : tshape) : result (list tshape) :=
  encoded ← apply (encoder the_models) [x];
  match encoded with
  | z_mean :: _ =>
      decoded ← apply (decoder the_models) [z_mean];
      apply (encoder the_models) decoded
  | [] => Raise ValueError
  end.

(** *** The loss

    A tensor of shape [(batch, latent_dim)] is a list of [batch] rows. *)
Definition matrix := list (list fp).

Definition K_flatten (x : Np.ndarray) : list fp := Np.data x.

(** [K.mean] of a vector; the mean of no element is [0 / 0]. *)
Definition K_mean (l : list fp) : fp :=
  Float.div (Float.sum l) (of_nat (length l)).

(** [K.sum(m, axis=-1)] *)
Definition K_sum_last (m : matrix) : list fp := List.map Float.sum m.

(** Element-wise operations on tensors of one shape. *)
Definition m_map (f : fp -> fp) (m : matrix) : matrix := List.map (List.map f) m.
Definition m_zip (f : fp -> fp -> fp) (a b : matrix) : matrix :=
  zip_with (zip_with f) a b.

(** [tf.keras.losses.mean_squared_error(y_true, y_pred)] on vectors. *)
Definition mean_squared_error (y_true y_pred : list fp) : fp :=
  K_mean (List.map Float.square (zip_with Float.sub y_pred y_true)).

(** [reconstruction_loss], lines 173 and 174. *)
Definition reconstruction_loss (inputs outputs : Np.ndarray) : fp :=
  let reconstruction_loss :=
    mean_squared_error (K_flatten inputs) (K_flatten outputs) in
  Float.mul reconstruction_loss (of_nat (input_shape.1 * input_shape.2)).

(** [kl_loss], lines 175 and 176. *)
Definition kl_loss (z_mean z_log_var : matrix) : list fp :=
  let kl_loss :=
    m_zip Float.sub
      (m_zip Float.sub (m_map (Float.add (Finite 1)) z_log_var)
                       (m_map Float.square z_mean))
      (m_map Float.exp z_log_var) in
  List.map (Float.mul (Finite (-0.5))) (K_sum_last kl_loss).

(** [vae_loss]: a scalar added to a vector is added to each element. *)
Definition vae_loss (inputs outputs : Np.ndarray) (z_mean z_log_var : matrix)
  : fp :=
  K_mean (List.map (Float.add (reconstruction_loss inputs outputs))
                   (kl_loss z_mean z_log_var)).



(** The element of the matrix summed in the KL term, from the mean and
    the log-variance at one position: [1 + log-variance - mean^2 -
    exp(log-variance)]. *)
Definition kl_element (q : fp * fp) : fp :=
  Float.sub (Float.sub (Float.add (Finite 1) q.2) (Float.square q.1))
            (Float.exp q.2).

(** The KL term of one sample, on real numbers. *)
Definition kl_sample (mean log_var : list R) : R :=
  (-0.5 * fold_right Rplus 0
            (List.map (fun p => 1 + p.2 - p.1 * p.1 - Rtrigo_def.exp p.2)
                      (combine mean log_var)))%R.

End Vae.

(** ** The ARIMA baseline *)

Module Arima.

(** statsmodels, for any implementation: [ARIMA_fit endog order] is
    [sm.tsa.ARIMA(endog, order=order).fit()], which may fail, and
    [predict fit first last] is the numbers predicted by
    [fit.predict(start=first, end=last, typ='levels')]. *)
Class Statsmodels := {
  fitted : Type;
  ARIMA_fit : list fp -> nat * nat * nat -> option fitted;
  predict : fitted -> Z -> Z -> list fp
}.

Section Baseline.
Context `{Statsmodels}.

(** [sm.tsa.ARIMA(endog, order).fit()]: a fit that does not succeed
    raises. *)
Definition fit (endog : list fp) (order : nat * nat * nat) : result fitted :=
  match ARIMA_fit endog order with
  | Some fit => Ok fit
  | None => Raise FittingFailure
  end.

(** What [fit.predict] returns.  statsmodels hands the predictions back in
    the container of the series the model was built on: a NumPy array for a
    NumPy array, a pandas Series for a pandas Series. *)
Inductive prediction :=
| Array (a : Np.ndarray)
| Series (values : Np.ndarray).

(** [p.values]: the array held by a pandas Series; a NumPy array has no
    such attribute. *)
Definition values (p : prediction) : result Np.ndarray :=
  match p with
  | Series a => Ok a
  | Array _ => Raise AttributeError
  end.

(** Lines 210 to 220: the value of [arima_pred] at the end.  The series
    [real_data_arima] is a NumPy array, so the prediction is one too. *)
Definition arima_pred (g : Np.rng) : result (Np.ndarray * Np.rng) :=
  '(real_data, g) ← generate_real_data 100 g;
  let real_data_arima := Np.flatten real_data in
  arima_fit ← fit (Np.data real_data_arima) (5, 1, 0)%nat;
  let len := Z.of_nat (length (Np.data real_data_arima)) in
  let predicted := predict arima_fit 0 (len - 1) in
  let arima_pred :=
    Array {| Np.shape := [length predicted]; Np.data := predicted |} in
  arima_pred_values ← values arima_pred;
  arima_pred ← Np.reshape arima_pred_values [100; 30; 1];
  Ok (arima_pred, g).

End Baseline.

(** A library whose fit always succeeds and predicts zeros. *)
Definition zero_statsmodels : Statsmodels :=
  {| fitted := unit;
     ARIMA_fit := fun _ _ => Some tt;
     predict := fun _ first last => repeat (Finite 0) (Z.to_nat (last - first + 1)) |}.

End Arima.

(** A back end that learns nothing, and a session that has not started:
    concrete values at which the statements below can be instantiated. *)
Definition null_backend : Keras.Backend :=
  {| Keras.tensor := unit;
     Keras.optimizer_state := unit;
     Keras.forward := fun _ _ x => x;
     Keras.optimizer_step := fun _ _ _ _ _ =>
       {| Keras.new_value := fun _ => tt;
          Keras.new_optimizer_state := tt;
          Keras.loss_value := Finite 0;
          Keras.metric_value := fun _ => Finite 0 |} |}.

Definition null_session : @Gan.session null_backend :=
  @Gan.Build_session null_backend ∅ tt tt (fun _ => 0%R) [] [].

(** ** Notions used in the further properties *)

(** Two sessions that agree on everything the training computes with: the
    variables, the optimizers, the random source and the log of calls.
    They may differ in what has been printed. *)
Definition same_training_state `{Keras.Backend} (s t : Gan.session) : Prop :=
  Gan.store s = Gan.store t /\
  Gan.d_optimizer s = Gan.d_optimizer t /\
  Gan.gan_optimizer s = Gan.gan_optimizer t /\
  Gan.np_random s = Gan.np_random t /\
  Gan.calls s = Gan.calls t.

(** The epochs at which [train_gan] prints a progress line. *)
Definition printed_epoch (epoch : Z) : bool := epoch mod 100 =? 0.

(** Finite tensors given by their real values. *)
Definition finite_matrix (m : list (list R)) : Vae.matrix :=
  List.map (List.map Finite) m.

Definition finite_array (shape : list nat) (values : list R) : Np.ndarray :=
  {| Np.shape := shape; Np.data := List.map Finite values |}.

(** Sum of a list of reals, and the squared errors of an output against
    an input, position by position. *)
Definition total (l : list R) : R := fold_right Rplus 0%R l.

Definition squared_errors (inputs outputs : list R) : list R :=
  List.map (fun p => ((p.2 - p.1) * (p.2 - p.1))%R) (combine inputs outputs).

(** * Properties *)

(** ** Properties of the synthesizers *)

Section Synthesizers.

Local Open Scope nat_scope.

Lemma combine_map_same {A B C} (f : A -> B) (h : A -> C) (l : list A) :
  combine (List.map f l) (List.map h l) = List.map (fun x => (f x, h x)) l.
Proof. induction l as [|a l IH]; simpl; [reflexivity | now rewrite IH]. Qed.

Lemma linspace_nonneg (start stop : fp) (num : Z) :
  (0 <= num)%Z ->
  exists X, Np.linspace start stop num = Ok X /\
            Np.shape X = [Z.to_nat num] /\
            length (Np.data X) = Z.to_nat num.
Proof.
  intros Hnum. unfold Np.linspace.
  destruct (Z.ltb_spec num 0) as [Hneg | _]; [lia |].
  eexists; split; [reflexivity |]. simpl. split; [reflexivity |].
  destruct (0 <? num - 1)%Z; now rewrite !length_map, length_seq.
Qed.

Lemma linspace_negative (start stop : fp) (num : Z) :
  (num < 0)%Z -> Np.linspace start stop num = Raise ValueError.
Proof.
  intros Hneg. unfold Np.linspace.
  destruct (Z.ltb_spec num 0) as [_ | Hge]; [reflexivity | lia].
Qed.

(** Reshaping [n * 30] elements to [(n, 30, 1)]. *)
Lemma reshape_batch (a : Np.ndarray) (n : Z) :
  (0 <= n)%Z -> length (Np.data a) = Z.to_nat (n * 30) ->
  Np.reshape a [n; 30%Z; 1%Z]
  = Ok {| Np.shape := [Z.to_nat n; 30; 1]; Np.data := Np.data a |}.
Proof.
  intros Hn Hlen. unfold Np.reshape.
  assert (Hf : List.filter (fun d => negb (d =? -1)%Z) [n; 30%Z; 1%Z] = [n; 30%Z; 1%Z]).
  { simpl. destruct (Z.eqb_spec n (-1)) as [-> | _]; [lia | reflexivity]. }
  rewrite Hf. simpl.
  destruct (Z.ltb_spec n 0) as [Hneg | _]; [lia |]. simpl.
  rewrite Hlen.
  match goal with |- context [Nat.eqb ?x ?y] => replace x with y by lia end.
  now rewrite Nat.eqb_refl.
Qed.

(** The samples of [linspace] between two finite end points, more than
    one sample asked for. *)
Lemma linspace_data (a b : R) (num : Z) :
  (1 < num)%Z ->
  Np.linspace (Finite a) (Finite b) num
  = Ok {| Np.shape := [Z.to_nat num];
          Np.data := List.map
            (fun k => Finite (INR k * ((b + - a) / IZR (num - 1)) + a))
            (seq 0 (Z.to_nat num)) |}.
Proof.
  intros Hnum. unfold Np.linspace.
  destruct (Z.ltb_spec num 0) as [Hneg | _]; [lia |].
  destruct (Z.ltb_spec 0 (num - 1)) as [Hdiv | Hdiv]; [| lia].
  do 2 f_equal. rewrite !List.map_map. apply List.map_ext. intros k.
  unfold of_nat, of_Z. simpl.
  destruct (Req_dec_T (IZR (num - 1)) 0) as [E | _]; [| reflexivity].
  apply (eq_IZR (num - 1) 0) in E. lia.
Qed.

(** The element at index [(i, j, 0)] of a batch given element by element. *)
Lemma item_batch (f : nat -> fp) (n i j : nat) :
  i < n -> j < 30 ->
  Np.item {| Np.shape := [n; 30; 1];
             Np.data := List.map f (seq 0 (n * 30)) |} [i; j; 0]
  = Some (f (i * 30 + j)).
Proof.
  intros Hi Hj. unfold Np.item. cbn [Np.shape Np.data Np.ravel].
  destruct (Nat.ltb_spec i n) as [_ | ?]; [| lia].
  destruct (Nat.ltb_spec j 30) as [_ | ?]; [| lia].
  cbn.
  replace (i * 30 + (j * 1 + 0)) with (i * 30 + j) by lia.
  rewrite nth_error_map, nth_error_seq.
  destruct (Nat.ltb_spec (i * 30 + j) (n * 30)) as [_ | ?]; [reflexivity | nia].
Qed.

(** Both synthesizers run the same way on a positive sample count: the
    ramp, its reshaping, the draw, the element-wise combination. *)
Ltac run_synthesizer Hn :=
  rewrite linspace_data by lia; cbn [mbind result_bind];
  rewrite reshape_batch by (cbn [Np.data]; rewrite ?length_map, ?length_seq; lia);
  cbn [mbind result_bind Np.shape Np.data];
  unfold Np.random_normal, Np.randn, Np.add, Np.mul, Np.map2, Np.sin,
    Np.scalar_add, Np.scalar_mul, Np.map1, Np.draw;
  cbn [Np.shape Np.data];
  destruct (decide _) as [_ | Hne]; [| congruence];
  cbn [mbind result_bind];
  match goal with
  | |- context [Np.count [Z.to_nat ?n; 30; 1]] =>
      replace (Np.count [Z.to_nat n; 30; 1]) with (Z.to_nat n * 30)
        by (cbn; lia);
      replace (Z.to_nat (n * 30)) with (Z.to_nat n * 30) by lia
  end;
  do 3 f_equal;
  rewrite !List.map_map, combine_map_same, List.map_map;
  apply List.map_ext; intros k; cbn; unfold ramp; do 3 f_equal; lra.

Lemma generate_real_data_pos (n_samples : Z) (g : Np.rng) :
  (0 < n_samples)%Z ->
  generate_real_data n_samples g
  = Ok ({| Np.shape := [Z.to_nat n_samples; 30; 1];
           Np.data := List.map
             (fun k => Finite (Rtrigo_def.sin (ramp n_samples k) + (0 + 0.5 * g k)))
             (seq 0 (Z.to_nat n_samples * 30)) |},
        Np.advance (Z.to_nat n_samples * 30) g).
Proof.
  intros Hn. unfold generate_real_data. run_synthesizer Hn.
Qed.

Lemma generate_rule_based_data_pos (n_samples : Z) (g : Np.rng) :
  (0 < n_samples)%Z ->
  generate_rule_based_data n_samples g
  = Ok ({| Np.shape := [Z.to_nat n_samples; 30; 1];
           Np.data := List.map
             (fun k => Finite (Rtrigo_def.sin (ramp n_samples k) * (1 + 0.1 * g k)))
             (seq 0 (Z.to_nat n_samples * 30)) |},
        Np.advance (Z.to_nat n_samples * 30) g).
Proof.
  intros Hn. unfold generate_rule_based_data. run_synthesizer Hn.
Qed.

Lemma generate_real_data_zero (g : Np.rng) :
  generate_real_data 0 g = Ok ({| Np.shape := [0; 30; 1]; Np.data := [] |}, g).
Proof. reflexivity. Qed.

Lemma generate_rule_based_data_zero (g : Np.rng) :
  generate_rule_based_data 0 g
  = Ok ({| Np.shape := [0; 30; 1]; Np.data := [] |}, g).
Proof. reflexivity. Qed.

Lemma generate_real_data_negative (n_samples : Z) (g : Np.rng) :
  (n_samples < 0)%Z -> generate_real_data n_samples g = Raise ValueError.
Proof.
  intros Hn. unfold generate_real_data.
  now rewrite linspace_negative by lia.
Qed.

Lemma generate_rule_based_data_negative (n_samples : Z) (g : Np.rng) :
  (n_samples < 0)%Z -> generate_rule_based_data n_samples g = Raise ValueError.
Proof.
  intros Hn. unfold generate_rule_based_data.
  now rewrite linspace_negative by lia.
Qed.

(** C1.  For a positive [n_samples], [generate_real_data] returns an array
    of shape [(n_samples, 30, 1)] holding [n_samples * 30] values; the value
    at index [(i, j, 0)] is the sine of point [i * 30 + j] of the ramp plus
    a noise term [0 + 0.5 * z], with [z] the standard normal deviate of that
    position in the random stream (one deviate per element, none used
    twice); the ramp starts at 0, ends at 100 and has a constant step; every
    value of the result is finite. *)
Theorem generate_real_data_spec (n_samples : Z) (g : Np.rng) :
  (0 < n_samples)%Z ->
  exists y,
    generate_real_data n_samples g
      = Ok (y, Np.advance (Z.to_nat n_samples * 30) g) /\
    Np.shape y = [Z.to_nat n_samples; 30; 1] /\
    Np.well_formed y /\
    (forall i j, i < Z.to_nat n_samples -> j < 30 ->
       Np.item y [i; j; 0]
       = Some (Finite (Rtrigo_def.sin (ramp n_samples (i * 30 + j))
                       + (0 + 0.5 * g (i * 30 + j))))) /\
    ramp n_samples 0 = 0%R /\
    ramp n_samples (Z.to_nat n_samples * 30 - 1) = 100%R /\
    (forall k, (ramp n_samples (S k) - ramp n_samples k
                = 100 / IZR (n_samples * 30 - 1))%R) /\
    Forall (fun v => is_finite v = true) (Np.data y).
Proof.
  intros Hn. eexists. split; [apply generate_real_data_pos, Hn |].
  assert (Hd : (IZR (n_samples * 30 - 1) <> 0)%R).
  { intros E. apply (eq_IZR _ 0) in E. lia. }
  repeat split.
  - unfold Np.well_formed. cbn. rewrite length_map, length_seq. lia.
  - intros i j Hi Hj. now rewrite item_batch.
  - unfold ramp. cbn. lra.
  - unfold ramp.
    replace (INR (Z.to_nat n_samples * 30 - 1)) with (IZR (n_samples * 30 - 1))
      by (rewrite INR_IZR_INZ; f_equal; lia).
    now field.
  - intros k. unfold ramp. rewrite S_INR. now field.
  - cbn [Np.data]. apply List.Forall_forall. intros v Hv.
    apply in_map_iff in Hv as (k & <- & _). reflexivity.
Qed.

(** One sample, with a random source that only hands out zeros. *)
Lemma generate_real_data_spec_witness :
  (0 < 1)%Z /\
  exists y,
    generate_real_data 1 (fun _ => 0%R) = Ok (y, Np.advance 30 (fun _ => 0%R)) /\
    Np.shape y = [1; 30; 1].
Proof.
  split; [lia |].
  destruct (generate_real_data_spec 1 (fun _ => 0%R)) as (y & Hy & Hs & _);
    [lia |].
  exists y. split; [exact Hy | exact Hs].
Defined.

(** C5, as stated, fails at [n_samples = 0]: both synthesizers return the
    empty batch of shape [(0, 30, 1)] and raise nothing. *)
Lemma nonpositive_n_samples_counterexample :
  generate_real_data 0 (fun _ => 0%R)
    = Ok ({| Np.shape := [0; 30; 1]; Np.data := [] |}, fun _ => 0%R) /\
  generate_rule_based_data 0 (fun _ => 0%R)
    = Ok ({| Np.shape := [0; 30; 1]; Np.data := [] |}, fun _ => 0%R) /\
  ~ (forall n_samples g, (n_samples <= 0)%Z ->
       raises (generate_real_data n_samples g) /\
       raises (generate_rule_based_data n_samples g)).
Proof.
  split; [reflexivity |]. split; [reflexivity |].
  intros H. destruct (H 0%Z (fun _ => 0%R)) as [H1 _]; [lia |].
  exact H1.
Qed.

(** C5, amended.  For every strictly negative [n_samples] each synthesizer
    raises the [ValueError] of the array construction and returns nothing. *)
Theorem negative_n_samples_raises (n_samples : Z) (g : Np.rng) :
  (n_samples < 0)%Z ->
  generate_real_data n_samples g = Raise ValueError /\
  generate_rule_based_data n_samples g = Raise ValueError.
Proof.
  intros Hn. split.
  - now apply generate_real_data_negative.
  - now apply generate_rule_based_data_negative.
Qed.

(** A sample count of -1. *)
Lemma negative_n_samples_raises_witness :
  (-1 < 0)%Z /\
  generate_real_data (-1) (fun _ => 0%R) = Raise ValueError /\
  generate_rule_based_data (-1) (fun _ => 0%R) = Raise ValueError.
Proof.
  split; [lia |]. apply (negative_n_samples_raises (-1) (fun _ => 0%R)). lia.
Defined.

(** C10.  With [n_samples = 0] neither synthesizer raises: each returns
    the empty array of shape [(0, 30, 1)] (and draws nothing from the random
    source); a synthesizer raises exactly when [n_samples] is strictly
    negative. *)
Theorem zero_samples_empty_batch :
  (forall g, generate_real_data 0 g
             = Ok ({| Np.shape := [0; 30; 1]; Np.data := [] |}, g)) /\
  (forall g, generate_rule_based_data 0 g
             = Ok ({| Np.shape := [0; 30; 1]; Np.data := [] |}, g)) /\
  (forall n_samples g,
     raises (generate_real_data n_samples g) <-> (n_samples < 0)%Z) /\
  (forall n_samples g,
     raises (generate_rule_based_data n_samples g) <-> (n_samples < 0)%Z).
Proof.
  split; [exact generate_real_data_zero |].
  split; [exact generate_rule_based_data_zero |].
  split; intros n_samples g; split.
  - intros Hr. destruct (Z.lt_trichotomy n_samples 0) as [Hlt | [-> | Hgt]].
    + exact Hlt.
    + now rewrite generate_real_data_zero in Hr.
    + now rewrite generate_real_data_pos in Hr.
  - intros Hn. now rewrite generate_real_data_negative.
  - intros Hr. destruct (Z.lt_trichotomy n_samples 0) as [Hlt | [-> | Hgt]].
    + exact Hlt.
    + now rewrite generate_rule_based_data_zero in Hr.
    + now rewrite generate_rule_based_data_pos in Hr.
  - intros Hn. now rewrite generate_rule_based_data_negative.
Qed.

End Synthesizers.

(** ** Properties of the GAN training loop *)

Section GanLoop.
Import Keras Gan.
Context `{Backend}.

Local Open Scope nat_scope.

Lemma as_shape_batch3 (batch_size : Z) :
  (0 <= batch_size)%Z ->
  Np.as_shape [batch_size; 30%Z; 1%Z] = Ok [Z.to_nat batch_size; 30; 1].
Proof.
  intros Hb. unfold Np.as_shape. cbn [existsb].
  destruct (Z.ltb_spec batch_size 0) as [? | _]; [lia | reflexivity].
Qed.

Lemma ones_batch (v : fp) (batch_size : Z) :
  (0 <= batch_size)%Z ->
  Np.full v [batch_size; 1%Z]
  = Ok {| Np.shape := [Z.to_nat batch_size; 1];
          Np.data := repeat v (Z.to_nat batch_size) |}.
Proof.
  intros Hb. unfold Np.full, Np.as_shape. cbn [existsb].
  destruct (Z.ltb_spec batch_size 0) as [? | _]; [lia |].
  cbn. now rewrite Nat.mul_1_r.
Qed.

(** One iteration on a positive batch size, for a discriminator compiled
    with the accuracy metric. *)
Lemma train_gan_epoch_pos (g : layer) (d c : compiled)
    (batch_size epoch : Z) (s : session) :
  (0 < batch_size)%Z -> metrics d = [accuracy] ->
  let B := Z.to_nat batch_size in
  let ones := {| Np.shape := [B; 1]; Np.data := repeat (Finite 1) B |} in
  let zeros := {| Np.shape := [B; 1]; Np.data := repeat (Finite 0) B |} in
  let valid_y := {| Np.shape := [B]; Np.data := repeat (Finite 1) B |} in
  exists real_data g1,
    generate_real_data batch_size (np_random s) = Ok (real_data, g1) /\
    let noise := fst (Np.random_normal 0 1 [B; 30; 1] g1) in
    let g2 := snd (Np.random_normal 0 1 [B; 30; 1] g1) in
    let noise2 := fst (Np.random_normal 0 1 [B; 30; 1] g2) in
    let g3 := snd (Np.random_normal 0 1 [B; 30; 1] g2) in
    let fake_data := predict g (store s) noise in
    let r1 := optimizer_step d (store s) (d_optimizer s) real_data ones in
    let t1 := train_on_batch d real_data ones (store s) (d_optimizer s) in
    let r2 := optimizer_step d t1.1.1 t1.1.2 fake_data zeros in
    let t2 := train_on_batch d fake_data zeros t1.1.1 t1.1.2 in
    let t3 := train_on_batch c noise2 valid_y t2.1.1 (gan_optimizer s) in
    t1.2 = [loss_value r1; metric_value r1 accuracy] /\
    t2.2 = [loss_value r2; metric_value r2 accuracy] /\
    train_gan_epoch g d c batch_size epoch s
    = Ok {| store := t3.1.1;
            d_optimizer := t2.1.2;
            gan_optimizer := t3.1.2;
            np_random := g3;
            stdout :=
              if (epoch mod 100 =? 0)%Z
              then stdout s ++
                   [{| p_epoch := epoch;
                       p_d_loss :=
                         Float.mul (Finite 0.5)
                           (Float.add (loss_value r1) (loss_value r2));
                       p_d_acc_percent :=
                         Float.mul (Finite 100)
                           (Float.mul (Finite 0.5)
                              (Float.add (metric_value r1 accuracy)
                                         (metric_value r2 accuracy)));
                       p_g_loss := t3.2 |}]
              else stdout s;
            calls := calls s ++ [GeneratorPredict noise;
                                 DiscriminatorTrain real_data ones;
                                 DiscriminatorTrain fake_data zeros;
                                 GanTrain noise2 valid_y] |}.
Proof.
  intros Hb Hm B ones zeros valid_y.
  eexists _, _. split; [apply generate_real_data_pos, Hb |].
  cbn zeta. split; [unfold train_on_batch; cbn; now rewrite Hm |].
  split; [unfold train_on_batch; cbn; now rewrite Hm |].
  unfold train_gan_epoch.
  rewrite generate_real_data_pos by exact Hb. cbn [mbind result_bind].
  unfold Np.random_normal_dims. rewrite as_shape_batch3 by lia.
  cbn [mbind result_bind].
  unfold Np.ones, Np.zeros. rewrite !ones_batch by lia.
  cbn [mbind result_bind].
  unfold train_on_batch at 1 2. rewrite Hm.
  cbn [mbind result_bind List.map zip_with].
  destruct (epoch mod 100 =? 0)%Z; reflexivity.
Qed.

(** One more iteration appends its four framework calls to the log. *)
Lemma train_gan_epoch_calls (g : layer) (d c : compiled)
    (batch_size epoch : Z) (s : session) :
  (0 < batch_size)%Z -> metrics d = [accuracy] ->
  exists s',
    train_gan_epoch g d c batch_size epoch s = Ok s' /\
    gan_updates (calls s') = gan_updates (calls s) + 1 /\
    discriminator_updates (calls s') = discriminator_updates (calls s) + 2 /\
    length (calls s') = length (calls s) + 4.
Proof.
  intros Hb Hm.
  destruct (train_gan_epoch_pos g d c batch_size epoch s Hb Hm)
    as (real_data & g1 & _ & _ & _ & Hrun).
  cbn zeta in Hrun. eexists. split; [exact Hrun |].
  cbn [calls]. unfold gan_updates, discriminator_updates.
  rewrite !List.filter_app, !length_app. cbn. repeat split; lia.
Qed.

Lemma for_each_train_gan (g : layer) (d c : compiled) (batch_size : Z)
    (epochs : list Z) (s : session) :
  (0 < batch_size)%Z -> metrics d = [accuracy] ->
  exists s',
    for_each (train_gan_epoch g d c batch_size) epochs s = Ok s' /\
    gan_updates (calls s') = gan_updates (calls s) + length epochs /\
    discriminator_updates (calls s')
      = discriminator_updates (calls s) + 2 * length epochs /\
    length (calls s') = length (calls s) + 4 * length epochs.
Proof.
  intros Hb Hm. revert s.
  induction epochs as [| e epochs IH]; intros s.
  - exists s. cbn. repeat split; lia.
  - destruct (train_gan_epoch_calls g d c batch_size e s Hb Hm)
      as (s1 & Hrun & Hg & Hd & Hl).
    destruct (IH s1) as (s' & Hrest & Hg' & Hd' & Hl').
    exists s'. cbn [for_each]. rewrite Hrun. cbn [mbind result_bind].
    split; [exact Hrest |]. cbn [length]. repeat split; lia.
Qed.

Lemma length_range (n : Z) : length (range n) = Z.to_nat n.
Proof. unfold range. now rewrite length_map, length_seq. Qed.

(** C7.  [train_gan] runs its loop body once per epoch, [epochs] times in
    all, and then returns: after the call the log holds [epochs] more
    updates of the combined model, [2 * epochs] more updates of the
    discriminator and [4 * epochs] more framework calls, whatever the losses
    were; with the default arguments that is 1000 iterations; with
    [epochs = 0] the body never runs and the session, with every weight of
    the generator and of the discriminator, is returned as it was. *)
Theorem train_gan_runs_every_epoch (epochs batch_size : Z) (s : session) :
  (0 <= epochs)%Z -> (0 < batch_size)%Z ->
  (exists s',
     train_gan (generator the_models) (discriminator the_models)
               (gan the_models) epochs batch_size s = Ok s' /\
     gan_updates (calls s') = gan_updates (calls s) + Z.to_nat epochs /\
     discriminator_updates (calls s')
       = discriminator_updates (calls s) + 2 * Z.to_nat epochs /\
     length (calls s') = length (calls s) + 4 * Z.to_nat epochs) /\
  (exists s',
     train_gan_default (generator the_models) (discriminator the_models)
                       (gan the_models) s = Ok s' /\
     gan_updates (calls s') = gan_updates (calls s) + 1000) /\
  (forall any_batch_size,
     train_gan (generator the_models) (discriminator the_models)
               (gan the_models) 0 any_batch_size s = Ok s).
Proof.
  intros He Hb. split; [| split].
  - unfold train_gan.
    destruct (for_each_train_gan (generator the_models)
                (discriminator the_models) (gan the_models) batch_size
                (range epochs) s Hb eq_refl) as (s' & Hrun & Hg & Hd & Hl).
    rewrite length_range in Hg, Hd, Hl. now exists s'.
  - unfold train_gan_default, train_gan.
    destruct (for_each_train_gan (generator the_models)
                (discriminator the_models) (gan the_models) 32
                (range 1000) s ltac:(lia) eq_refl) as (s' & Hrun & Hg & _).
    rewrite length_range in Hg. exists s'. split; [exact Hrun |].
    rewrite Hg. f_equal.
  - intros b. reflexivity.
Qed.

(** C2.  One iteration of the loop of [train_gan], on the models of the
    module and a positive batch size: the real batch and a noise batch are
    drawn, the generator predicts the fake batch; the discriminator is
    updated once on the real batch with labels that are all 1 and once on
    the fake batch with labels that are all 0, these being its only
    updates; the discriminator loss and accuracy of the epoch are 0.5 times
    the sum of the two losses and of the two accuracies (shown on the
    progress line every 100 epochs); then a second noise batch is drawn
    from the random source where the first draw left it, and the combined
    model is updated once on it with targets that are all 1. *)
Theorem gan_iteration_updates (batch_size epoch : Z) (s : session) :
  (0 < batch_size)%Z ->
  let B := Z.to_nat batch_size in
  exists real_data noise fake_data ones zeros noise2 valid_y,
  exists g1 g2 g3 st1 o1 st2 o2 st3 o3,
  exists loss_real acc_real loss_fake acc_fake g_loss s',
    generate_real_data batch_size (np_random s) = Ok (real_data, g1) /\
    Np.random_normal 0 1 [B; 30; 1] g1 = (noise, g2) /\
    fake_data = predict (generator the_models) (store s) noise /\
    Np.shape ones = [B; 1] /\ Np.data ones = repeat (Finite 1) B /\
    train_on_batch (discriminator the_models) real_data ones
                   (store s) (d_optimizer s)
      = (st1, o1, [loss_real; acc_real]) /\
    Np.shape zeros = [B; 1] /\ Np.data zeros = repeat (Finite 0) B /\
    train_on_batch (discriminator the_models) fake_data zeros st1 o1
      = (st2, o2, [loss_fake; acc_fake]) /\
    Np.random_normal 0 1 [B; 30; 1] g2 = (noise2, g3) /\
    g2 = Np.advance (B * 30) g1 /\
    Np.shape valid_y = [B] /\ Np.data valid_y = repeat (Finite 1) B /\
    train_on_batch (gan the_models) noise2 valid_y st2 (gan_optimizer s)
      = (st3, o3, g_loss) /\
    train_gan_epoch (generator the_models) (discriminator the_models)
                    (gan the_models) batch_size epoch s = Ok s' /\
    store s' = st3 /\ d_optimizer s' = o2 /\ gan_optimizer s' = o3 /\
    np_random s' = g3 /\
    calls s' = calls s ++ [GeneratorPredict noise;
                           DiscriminatorTrain real_data ones;
                           DiscriminatorTrain fake_data zeros;
                           GanTrain noise2 valid_y] /\
    stdout s' =
      if (epoch mod 100 =? 0)%Z
      then stdout s ++
           [{| p_epoch := epoch;
               p_d_loss := Float.mul (Finite 0.5) (Float.add loss_real loss_fake);
               p_d_acc_percent :=
                 Float.mul (Finite 100)
                   (Float.mul (Finite 0.5) (Float.add acc_real acc_fake));
               p_g_loss := g_loss |}]
      else stdout s.
Proof.
  intros Hb B.
  destruct (train_gan_epoch_pos (generator the_models)
              (discriminator the_models) (gan the_models)
              batch_size epoch s Hb eq_refl)
    as (real_data & g1 & Hreal & _ & _ & Hrun).
  cbn zeta in Hrun.
  exists real_data. do 2 eexists.
  exists {| Np.shape := [B; 1]; Np.data := repeat (Finite 1) B |},
         {| Np.shape := [B; 1]; Np.data := repeat (Finite 0) B |}.
  eexists.
  exists {| Np.shape := [B]; Np.data := repeat (Finite 1) B |}.
  exists g1. do 14 eexists.
  split; [exact Hreal |].
  split; [reflexivity |].
  split; [reflexivity |].
  split; [reflexivity |]. split; [reflexivity |].
  split; [reflexivity |].
  split; [reflexivity |]. split; [reflexivity |].
  split; [reflexivity |].
  split; [reflexivity |].
  split; [reflexivity |].
  split; [reflexivity |]. split; [reflexivity |].
  split; [reflexivity |].
  split; [exact Hrun |].
  repeat (split; [reflexivity |]). reflexivity.
Qed.

(** An update leaves every variable outside the trainable weights of the
    compiled model as it was. *)
Lemma train_on_batch_frame (c : compiled) (x y : Np.ndarray)
    (st : gmap var tensor) (o : optimizer_state) (v : var) :
  ~ In v (trainable_weights (net c)) ->
  (train_on_batch c x y st o).1.1 !! v = st !! v.
Proof.
  unfold train_on_batch. cbn [fst].
  generalize (new_value (optimizer_step c st o x y)). intros f.
  induction (trainable_weights (net c)) as [| w ws IH]; intros Hv.
  - reflexivity.
  - cbn [foldr]. rewrite lookup_insert_ne.
    + apply IH. intros Hin. apply Hv. now right.
    + intros ->. apply Hv. now left.
Qed.

(** An update writes every trainable weight of the compiled model. *)
Lemma train_on_batch_writes (c : compiled) (x y : Np.ndarray)
    (st : gmap var tensor) (o : optimizer_state) (v : var) :
  In v (trainable_weights (net c)) ->
  (train_on_batch c x y st o).1.1 !! v
  = Some (new_value (optimizer_step c st o x y) v).
Proof.
  unfold train_on_batch. cbn [fst].
  generalize (new_value (optimizer_step c st o x y)). intros f.
  induction (trainable_weights (net c)) as [| w ws IH]; intros Hv.
  - destruct Hv.
  - cbn [foldr]. destruct (decide (w = v)) as [-> | Hne].
    + now rewrite lookup_insert_eq.
    + rewrite lookup_insert_ne by exact Hne. apply IH.
      destruct Hv as [Hv | Hv]; [contradiction | exact Hv].
Qed.

(** C4.  The update of the combined model, [gan.train_on_batch], changes no
    weight of the discriminator: whatever the noise batch, the targets, the
    values of the variables and the state of the optimizer, each of the
    eight variables of the discriminator has the same value after the
    update as before.  The combined model holds the discriminator's own
    variables, its trainable weights are those of the generator, and the
    discriminator's own updates do write its variables. *)
Theorem gan_update_keeps_discriminator (noise valid_y : Np.ndarray)
    (st : gmap var tensor) (o : optimizer_state) :
  Forall (fun v => (train_on_batch (gan the_models) noise valid_y st o).1.1 !! v
                   = st !! v)
         (weights (net (discriminator the_models))) /\
  weights (net (discriminator the_models)) = seq 8 8 /\
  weights (net (gan the_models))
    = weights (generator the_models)
      ++ weights (net (discriminator the_models)) /\
  trainable_weights (net (gan the_models)) = weights (generator the_models) /\
  trainable_weights (net (discriminator the_models))
    = weights (net (discriminator the_models)).
Proof.
  split; [| repeat split; reflexivity].
  apply List.Forall_forall. intros v Hv.
  apply train_on_batch_frame.
  change (trainable_weights (net (gan the_models))) with (seq 0 8).
  change (weights (net (discriminator the_models))) with (seq 8 8) in Hv.
  rewrite in_seq in *. lia.
Qed.

(** The shapes through the three models of the GAN, for every batch
    size. *)
Lemma gan_models_shapes (B : nat) :
  apply (generator the_models) [[B; 30; 1]] = Ok [[B; 30; 1]] /\
  apply (net (discriminator the_models)) [[B; 30; 1]] = Ok [[B; 1]] /\
  apply (net (gan the_models)) [[B; 30; 1]] = Ok [[B; 1]].
Proof. repeat split; reflexivity. Qed.

End GanLoop.

(** ** Properties of the VAE *)

Section VaeShapes.
Import Keras Vae.

Local Open Scope nat_scope.

(** C9, as stated, fails at a batch of one sample: the encoder returns two
    tensors and the decoder, which takes one, refuses them; with the
    decoder given the mean alone, the composition ends in the encoder and
    returns its two [(1, 10)] tensors, not a [(1, 30, 1)] batch. *)
Lemma encoder_decoder_encoder_counterexample :
  apply (encoder the_models) [[1; 30; 1]] = Ok [[1; 10]; [1; 10]] /\
  encoder_decoder_encoder [1; 30; 1] = Raise ValueError /\
  encoder_decoder_mean_encoder [1; 30; 1] = Ok [[1; 10]; [1; 10]] /\
  ~ (forall B, encoder_decoder_encoder [B; 30; 1] = Ok [[B; 30; 1]]).
Proof.
  split; [reflexivity |]. split; [reflexivity |]. split; [reflexivity |].
  intros Hc. specialize (Hc 1). discriminate Hc.
Qed.

(** C9, amended.  For every batch size [B]: the encoder maps a batch of
    shape [(B, 30, 1)] to a mean and a log-variance of shape [(B, 10)]
    each, the sampling layer maps those to a latent batch of shape
    [(B, 10)], the decoder maps a latent batch of shape [(B, 10)] to a
    batch of shape [(B, 30, 1)], and their composition in that order, the
    VAE, returns a batch of the shape [(B, 30, 1)] of its input. *)
Theorem vae_round_trip_shape (B : nat) :
  apply (encoder the_models) [[B; 30; 1]] = Ok [[B; 10]; [B; 10]] /\
  apply (Lambda sampling) [[B; 10]; [B; 10]] = Ok [[B; 10]] /\
  apply (decoder the_models) [[B; 10]] = Ok [[B; 30; 1]] /\
  apply (net (vae the_models)) [[B; 30; 1]] = Ok [[B; 30; 1]].
Proof.
  assert (Hs : sampling [[B; 10]; [B; 10]] = Ok [[B; 10]]).
  { unfold sampling, elementwise.
    rewrite decide_True by reflexivity. cbn [mbind result_bind].
    rewrite decide_True by reflexivity. reflexivity. }
  split; [reflexivity |]. split; [exact Hs |]. split; [reflexivity |].
  change (apply (net (vae the_models)) [[B; 30; 1]])
    with (z ← sampling [[B; 10]; [B; 10]]; apply (decoder the_models) z).
  rewrite Hs. reflexivity.
Qed.

End VaeShapes.

Section VaeLoss.
Import Keras Vae.

Lemma kl_row (mean log_var : list fp) :
  zip_with Float.sub
    (zip_with Float.sub (List.map (Float.add (Finite 1)) log_var)
                        (List.map Float.square mean))
    (List.map Float.exp log_var)
  = List.map kl_element (combine mean log_var).
Proof.
  revert log_var. induction mean as [| m mean IH]; intros [| v log_var];
    cbn; try reflexivity.
  now rewrite IH.
Qed.

Lemma kl_rows (z_mean z_log_var : matrix) :
  m_zip Float.sub
    (m_zip Float.sub (m_map (Float.add (Finite 1)) z_log_var)
                     (m_map Float.square z_mean))
    (m_map Float.exp z_log_var)
  = List.map (fun p => List.map kl_element (combine p.1 p.2))
             (combine z_mean z_log_var).
Proof.
  unfold m_zip, m_map. revert z_log_var.
  induction z_mean as [| m z_mean IH]; intros [| v z_log_var];
    cbn; try reflexivity.
  now rewrite IH, kl_row.
Qed.

Lemma kl_loss_per_sample (z_mean z_log_var : matrix) :
  kl_loss z_mean z_log_var
  = List.map (fun p => Float.mul (Finite (-0.5))
                         (Float.sum (List.map kl_element (combine p.1 p.2))))
             (combine z_mean z_log_var).
Proof.
  unfold kl_loss, K_sum_last. now rewrite kl_rows, !List.map_map.
Qed.



Lemma sum_finite (l : list R) :
  Float.sum (List.map Finite l) = Finite (fold_right Rplus 0%R l).
Proof.
  unfold Float.sum. induction l as [| r l IH]; cbn [List.map fold_right].
  - reflexivity.
  - now rewrite IH.
Qed.

Lemma kl_sample_nonneg (mean log_var : list R) :
  (0 <= kl_sample mean log_var)%R.
Proof.
  unfold kl_sample.
  assert (Hs : (fold_right Rplus 0
                  (List.map (fun p => 1 + p.2 - p.1 * p.1 - Rtrigo_def.exp p.2)
                            (combine mean log_var)) <= 0)%R).
  { induction (combine mean log_var) as [| [m v] l IH]; cbn.
    - lra.
    - pose proof (exp_ineq1_le v). nra. }
  lra.
Qed.

(** C8.  On finite means and log-variances the KL term that the code
    computes for a sample is [-0.5 * sum (1 + log-variance - mean^2 -
    exp(log-variance))], and this number is greater than or equal to 0 for
    every mean vector and every log-variance vector. *)
Theorem kl_loss_nonnegative :
  (forall z_mean z_log_var : list (list R),
     kl_loss (List.map (List.map Finite) z_mean)
             (List.map (List.map Finite) z_log_var)
     = List.map (fun p => Finite (kl_sample p.1 p.2))
                (combine z_mean z_log_var)) /\
  (forall mean log_var : list R, (0 <= kl_sample mean log_var)%R).
Proof.
  split; [| exact kl_sample_nonneg].
  intros z_mean z_log_var. rewrite kl_loss_per_sample.
  revert z_log_var.
  induction z_mean as [| m z_mean IH]; intros [| v z_log_var];
    cbn [List.map combine]; try reflexivity.
  rewrite IH. f_equal. cbn [fst snd]. unfold kl_sample.
  replace (List.map kl_element (combine (List.map Finite m) (List.map Finite v)))
    with (List.map Finite
            (List.map (fun p : R * R => (1 + p.2 - p.1 * p.1 - Rtrigo_def.exp p.2)%R)
                      (combine m v))).
  - now rewrite sum_finite.
  - clear. revert v. induction m as [| a m IH]; intros [| b v];
      cbn [List.map combine]; try reflexivity.
    rewrite IH. reflexivity.
Qed.

End VaeLoss.

(** ** Properties of the ARIMA baseline *)

Section ArimaBaseline.
Import Arima.
Context `{Statsmodels}.

Local Open Scope nat_scope.

(** The baseline, step by step: the batch, its flattening to 3000 values,
    the fit of order [(5, 1, 0)], and the [.values] of the prediction. *)
Lemma arima_pred_outcome (g : Np.rng) :
  exists real_data g',
    generate_real_data 100 g = Ok (real_data, g') /\
    Np.shape (Np.flatten real_data) = [3000] /\
    length (Np.data (Np.flatten real_data)) = 3000 /\
    arima_pred g
    = match ARIMA_fit (Np.data (Np.flatten real_data)) (5, 1, 0) with
      | None => Raise FittingFailure
      | Some _ => Raise AttributeError
      end.
Proof.
  eexists _, _. split; [apply generate_real_data_pos; lia |].
  assert (Hn : length (List.map
                 (fun k => Finite (Rtrigo_def.sin (ramp 100 k) + (0 + 0.5 * g k)))
                 (seq 0 (Z.to_nat 100 * 30))) = 3000).
  { rewrite length_map, length_seq. reflexivity. }
  split; [unfold Np.flatten; cbn [Np.shape Np.data]; now rewrite Hn |].
  split; [exact Hn |].
  unfold arima_pred. rewrite generate_real_data_pos by lia.
  cbn [mbind result_bind]. unfold fit. cbn [Np.flatten Np.data].
  destruct (ARIMA_fit _ _) as [r |]; reflexivity.
Qed.

End ArimaBaseline.

(** C6.  The baseline flattens the batch of 100 samples to one series of
    3000 values and fits an ARIMA model of order [(5, 1, 0)] on it, and a
    failure of the fit is raised as it is.  But when the fit succeeds the
    baseline does not return the predictions with shape [(100, 30, 1)]: the
    prediction on a NumPy series is a NumPy array, line 220 asks for its
    [.values], and the baseline raises [AttributeError] before the
    reshaping.  It returns no value for any library and any random source,
    as with a library whose fit succeeds and a source of zeros. *)
Theorem arima_baseline_attribute_error :
  (forall (library : Arima.Statsmodels) (g : Np.rng),
     exists real_data g',
       generate_real_data 100 g = Ok (real_data, g') /\
       Np.shape (Np.flatten real_data) = [3000%nat] /\
       Arima.arima_pred g
       = match Arima.ARIMA_fit (Np.data (Np.flatten real_data))
                               (5, 1, 0)%nat with
         | None => Raise FittingFailure
         | Some _ => Raise AttributeError
         end /\
       raises (Arima.arima_pred g)) /\
  @Arima.arima_pred Arima.zero_statsmodels (fun _ => 0%R)
  = Raise AttributeError.
Proof.
  split.
  - intros library g.
    destruct (@arima_pred_outcome library g)
      as (real_data & g' & Hreal & Hshape & _ & Hrun).
    exists real_data, g'. split; [exact Hreal |]. split; [exact Hshape |].
    split; [exact Hrun |]. rewrite Hrun.
    now destruct (Arima.ARIMA_fit _ _).
  - destruct (@arima_pred_outcome Arima.zero_statsmodels (fun _ => 0%R))
      as (real_data & g' & _ & _ & _ & Hrun).
    exact Hrun.
Qed.

(** ** Instances of the statements above *)

(** Two epochs on a batch of one sample, from a session that has not
    started: two updates of the combined model. *)
Lemma train_gan_runs_every_epoch_witness :
  (0 <= 2)%Z /\ (0 < 1)%Z /\
  exists s',
    Gan.train_gan (Gan.generator Gan.the_models)
      (Gan.discriminator Gan.the_models) (Gan.gan Gan.the_models)
      2 1 null_session = Ok s' /\
    Gan.gan_updates (Gan.calls s') = 2%nat.
Proof.
  split; [lia |]. split; [lia |].
  destruct (train_gan_runs_every_epoch 2 1 null_session) as [(s' & Hrun & Hg & _) _];
    [lia | lia |].
  exists s'. split; [exact Hrun | exact Hg].
Defined.

(** Epoch 0 on a batch of one sample: four framework calls and one
    progress line. *)
Lemma gan_iteration_updates_witness :
  (0 < 1)%Z /\
  exists s',
    Gan.train_gan_epoch (Gan.generator Gan.the_models)
      (Gan.discriminator Gan.the_models) (Gan.gan Gan.the_models)
      1 0 null_session = Ok s' /\
    length (Gan.calls s') = 4%nat /\
    length (Gan.stdout s') = 1%nat.
Proof.
  split; [lia |].
  destruct (gan_iteration_updates 1 0 null_session)
    as (real_data & noise & fake_data & ones & zeros & noise2 & valid_y
        & g1 & g2 & g3 & st1 & o1 & st2 & o2 & st3 & o3
        & loss_real & acc_real & loss_fake & acc_fake & g_loss & s'
        & _ & _ & _ & _ & _ & _ & _ & _ & _ & _ & _ & _ & _ & _
        & Hrun & _ & _ & _ & _ & Hcalls & Hout);
    [lia |].
  exists s'. split; [exact Hrun |].
  rewrite Hcalls, Hout. split; reflexivity.
Defined.

(** * Further properties *)

(** ** The synthesizers on a positive sample count *)

Section SynthesizerValues.

Local Open Scope nat_scope.

(** The points of the ramp stay in [[0, 100]]. *)
Lemma ramp_range (n_samples : Z) (k : nat) :
  (0 < n_samples)%Z -> k < Z.to_nat n_samples * 30 ->
  (0 <= ramp n_samples k <= 100)%R.
Proof.
  intros Hn Hk. unfold ramp.
  assert (Hd : (0 < IZR (n_samples * 30 - 1))%R) by (apply IZR_lt; lia).
  assert (Hk' : (INR k <= IZR (n_samples * 30 - 1))%R).
  { rewrite INR_IZR_INZ. apply IZR_le. lia. }
  pose proof (pos_INR k) as Hk0.
  split.
  - apply Rmult_le_pos; [exact Hk0 |].
    apply Rlt_le, Rdiv_lt_0_compat; [lra | exact Hd].
  - apply (Rmult_le_reg_r (IZR (n_samples * 30 - 1))); [exact Hd |].
    replace (INR k * (100 / IZR (n_samples * 30 - 1)) * IZR (n_samples * 30 - 1))%R
      with (INR k * 100)%R by (field; lra).
    nra.
Qed.

(** X1.  For a positive [n_samples], [generate_rule_based_data] returns an
    array of shape [(n_samples, 30, 1)]; the value at index [(i, j, 0)] is
    the sine of point [i * 30 + j] of the ramp multiplied by [1 + 0.1 * z],
    [z] being the deviate of that position; every value is finite and no
    larger in magnitude than its factor [1 + 0.1 * z]; the first value,
    where the ramp is 0, is 0 whatever the random source gives. *)
Theorem generate_rule_based_data_spec (n_samples : Z) (g : Np.rng) :
  (0 < n_samples)%Z ->
  exists y,
    generate_rule_based_data n_samples g
      = Ok (y, Np.advance (Z.to_nat n_samples * 30) g) /\
    Np.shape y = [Z.to_nat n_samples; 30; 1] /\
    Np.well_formed y /\
    (forall i j, i < Z.to_nat n_samples -> j < 30 ->
       exists v,
         Np.item y [i; j; 0] = Some (Finite v) /\
         v = (Rtrigo_def.sin (ramp n_samples (i * 30 + j)%nat)
              * (1 + 0.1 * g (i * 30 + j)%nat))%R /\
         (Rabs v <= Rabs (1 + 0.1 * g (i * 30 + j)%nat))%R) /\
    Np.item y [0; 0; 0] = Some (Finite 0) /\
    Forall (fun v => is_finite v = true) (Np.data y).
Proof.
  intros Hn. eexists. split; [apply generate_rule_based_data_pos, Hn |].
  repeat split.
  - unfold Np.well_formed. cbn. rewrite length_map, length_seq. lia.
  - intros i j Hi Hj. eexists. rewrite item_batch by assumption.
    split; [reflexivity |]. split; [reflexivity |].
    rewrite Rabs_mult.
    pose proof (SIN_bound (ramp n_samples (i * 30 + j))) as [Hlo Hhi].
    assert (Hs : (Rabs (Rtrigo_def.sin (ramp n_samples (i * 30 + j)%nat)) <= 1)%R)
      by (apply Rabs_le; lra).
    pose proof (Rabs_pos (1 + 0.1 * g (i * 30 + j))). nra.
  - rewrite item_batch by lia. cbn [Nat.mul Nat.add]. unfold ramp. cbn [INR].
    do 2 f_equal. rewrite Rmult_0_l, sin_0. lra.
  - cbn [Np.data]. apply List.Forall_forall. intros v Hv.
    apply in_map_iff in Hv as (k & <- & _). reflexivity.
Qed.

(** X2.  In the batch of [generate_real_data], for a positive [n_samples],
    the sine is taken at points between 0 and 100 that increase along the
    batch, and every value lies within 1 of its noise term [0.5 * z]. *)
Theorem real_data_within_one_of_noise (n_samples : Z) (g : Np.rng) :
  (0 < n_samples)%Z ->
  exists y g',
    generate_real_data n_samples g = Ok (y, g') /\
    forall i j, i < Z.to_nat n_samples -> j < 30 ->
      exists x v,
        Np.item y [i; j; 0] = Some (Finite v) /\
        v = (Rtrigo_def.sin x + (0 + 0.5 * g (i * 30 + j)%nat))%R /\
        x = ramp n_samples (i * 30 + j) /\
        (0 <= x <= 100)%R /\
        (x < ramp n_samples (S (i * 30 + j)%nat))%R /\
        (Rabs (v - 0.5 * g (i * 30 + j)%nat) <= 1)%R.
Proof.
  intros Hn. eexists _, _. split; [apply generate_real_data_pos, Hn |].
  intros i j Hi Hj. eexists _, _. rewrite item_batch by assumption.
  split; [reflexivity |]. split; [reflexivity |]. split; [reflexivity |].
  split; [apply ramp_range; [exact Hn | nia] |].
  split.
  - unfold ramp. rewrite S_INR.
    assert (Hd : (0 < IZR (n_samples * 30 - 1))%R) by (apply IZR_lt; lia).
    assert (Hstep : (0 < 100 / IZR (n_samples * 30 - 1))%R)
      by (apply Rdiv_lt_0_compat; [lra | exact Hd]).
    nra.
  - pose proof (SIN_bound (ramp n_samples (i * 30 + j))) as [Hlo Hhi].
    apply Rabs_le. lra.
Qed.

End SynthesizerValues.

Lemma generate_rule_based_data_spec_witness :
  (0 < 2)%Z /\
  exists y,
    generate_rule_based_data 2 (fun _ => 1%R) = Ok (y, Np.advance 60 (fun _ => 1%R)) /\
    Np.item y [0; 0; 0]%nat = Some (Finite 0).
Proof.
  split; [lia |].
  destruct (generate_rule_based_data_spec 2 (fun _ => 1%R))
    as (y & Hy & _ & _ & _ & H0 & _); [lia |].
  exists y. split; [exact Hy | exact H0].
Defined.

Lemma real_data_within_one_of_noise_witness :
  (0 < 1)%Z /\
  exists y g', generate_real_data 1 (fun _ => 0%R) = Ok (y, g').
Proof.
  split; [lia |].
  destruct (real_data_within_one_of_noise 1 (fun _ => 0%R))
    as (y & g' & Hy & _); [lia |].
  exists y, g'. exact Hy.
Defined.

(** ** The training loop: what it changes, prints and draws *)

Section GanSession.
Import Keras Gan.
Context `{Backend}.

Local Open Scope nat_scope.

(** What one iteration does to the session. *)
Lemma train_gan_epoch_effect (g : layer) (d c : compiled)
    (batch_size epoch : Z) (s : session) :
  (0 < batch_size)%Z -> metrics d = [accuracy] ->
  exists s',
    train_gan_epoch g d c batch_size epoch s = Ok s' /\
    (forall v, ~ In v (trainable_weights (net d)) ->
               ~ In v (trainable_weights (net c)) ->
               store s' !! v = store s !! v) /\
    (forall i, np_random s' i
               = np_random s (90 * Z.to_nat batch_size + i)) /\
    exists lines,
      stdout s' = stdout s ++ lines /\
      List.map p_epoch lines = if printed_epoch epoch then [epoch] else [].
Proof.
  intros Hb Hm.
  destruct (train_gan_epoch_pos g d c batch_size epoch s Hb Hm)
    as (real_data & g1 & Hreal & _ & _ & Hrun).
  rewrite generate_real_data_pos in Hreal by exact Hb.
  injection Hreal as _ <-.
  cbn zeta in Hrun. eexists. split; [exact Hrun |].
  cbn [store np_random stdout]. split; [| split].
  - intros v Hd Hc.
    rewrite train_on_batch_frame by exact Hc.
    rewrite train_on_batch_frame by exact Hd.
    now rewrite train_on_batch_frame by exact Hd.
  - intros i. unfold Np.random_normal, Np.advance. cbn [fst snd Np.count fold_right].
    f_equal. lia.
  - unfold printed_epoch. destruct (epoch mod 100 =? 0)%Z.
    + eexists [_]. split; reflexivity.
    + exists []. split; [now rewrite app_nil_r | reflexivity].
Qed.

(** The same over a run of epochs. *)
Lemma for_each_train_gan_effect (g : layer) (d c : compiled) (batch_size : Z)
    (epochs : list Z) (s : session) :
  (0 < batch_size)%Z -> metrics d = [accuracy] ->
  exists s',
    for_each (train_gan_epoch g d c batch_size) epochs s = Ok s' /\
    (forall v, ~ In v (trainable_weights (net d)) ->
               ~ In v (trainable_weights (net c)) ->
               store s' !! v = store s !! v) /\
    (forall i, np_random s' i
               = np_random s (length epochs * (90 * Z.to_nat batch_size) + i)) /\
    exists lines,
      stdout s' = stdout s ++ lines /\
      List.map p_epoch lines = List.filter printed_epoch epochs.
Proof.
  intros Hb Hm. revert s.
  induction epochs as [| e epochs IH]; intros s.
  - exists s. split; [reflexivity |]. split; [reflexivity |].
    split; [reflexivity |]. exists []. split; [now rewrite app_nil_r | reflexivity].
  - destruct (train_gan_epoch_effect g d c batch_size e s Hb Hm)
      as (s1 & Hrun & Hframe & Hrng & l1 & Hout & Hl1).
    destruct (IH s1) as (s' & Hrest & Hframe' & Hrng' & l2 & Hout' & Hl2).
    exists s'. cbn [for_each]. rewrite Hrun. cbn [mbind result_bind].
    split; [exact Hrest |]. split; [| split].
    + intros v Hd Hc. rewrite Hframe' by assumption. now apply Hframe.
    + intros i. rewrite Hrng', Hrng. f_equal. cbn [length]. lia.
    + exists (l1 ++ l2). split.
      * now rewrite Hout', Hout, app_assoc.
      * rewrite List.map_app, Hl1, Hl2. cbn [List.filter].
        now destruct (printed_epoch e).
Qed.

(** X6.  Whatever the number of epochs, on a positive batch size
    [train_gan] changes no variable other than the sixteen of the generator
    and of the discriminator: every other variable of the process, such as
    those of the VAE, has the value it had before the call. *)
Theorem train_gan_changes_only_its_models (epochs batch_size : Z) (s : session) :
  (0 < batch_size)%Z ->
  exists s',
    train_gan (generator the_models) (discriminator the_models)
              (gan the_models) epochs batch_size s = Ok s' /\
    (forall v, ~ In v (weights (net (gan the_models))) ->
               store s' !! v = store s !! v) /\
    Forall (fun v => store s' !! v = store s !! v)
           (weights (Vae.encoder Vae.the_models)
            ++ weights (Vae.decoder Vae.the_models)).
Proof.
  intros Hb. unfold train_gan.
  destruct (for_each_train_gan_effect (generator the_models)
              (discriminator the_models) (gan the_models) batch_size
              (range epochs) s Hb eq_refl) as (s' & Hrun & Hframe & _).
  exists s'. split; [exact Hrun |].
  assert (Hout : forall v, ~ In v (seq 0 16) -> store s' !! v = store s !! v).
  { intros v Hv. apply Hframe.
    - change (trainable_weights (net (discriminator the_models))) with (seq 8 8).
      rewrite in_seq in *. lia.
    - change (trainable_weights (net (gan the_models))) with (seq 0 8).
      rewrite in_seq in *. lia. }
  split; [exact Hout |].
  apply List.Forall_forall. intros v Hv. apply Hout.
  change (weights (Vae.encoder Vae.the_models)
          ++ weights (Vae.decoder Vae.the_models)) with (seq 16 17) in Hv.
  rewrite in_seq in *. lia.
Qed.

End GanSession.

Section GanRuns.
Import Keras Gan.
Context `{Backend}.

Local Open Scope nat_scope.

Lemma range_succ (n : nat) :
  range (Z.of_nat (S n)) = range (Z.of_nat n) ++ [Z.of_nat n].
Proof.
  unfold range. rewrite !Nat2Z.id, seq_S, List.map_app. reflexivity.
Qed.

(** Among the first [n] epochs, one in a hundred is printed, the first
    included. *)
Lemma printed_epochs_count (n : nat) :
  length (List.filter printed_epoch (range (Z.of_nat n)))
  = Z.to_nat ((Z.of_nat n + 99) / 100).
Proof.
  induction n as [| n IH]; [reflexivity |].
  rewrite range_succ, List.filter_app, length_app, IH.
  cbn [List.filter]. unfold printed_epoch.
  destruct (Z.eqb_spec (Z.of_nat n mod 100) 0) as [E | E]; cbn [length].
  - assert ((Z.of_nat (S n) + 99) / 100 = (Z.of_nat n + 99) / 100 + 1)%Z
      by (Z.to_euclidean_division_equations; lia).
    assert (0 <= (Z.of_nat n + 99) / 100)%Z
      by (Z.to_euclidean_division_equations; lia).
    lia.
  - assert ((Z.of_nat (S n) + 99) / 100 = (Z.of_nat n + 99) / 100)%Z
      by (Z.to_euclidean_division_equations; lia).
    lia.
Qed.

(** X7.  [train_gan] prints one progress line for each epoch that is a
    multiple of 100, in increasing order and nothing else: for
    [epochs >= 0] that is [(epochs + 99) / 100] lines, the first for epoch 0;
    the last epochs of a run whose length is not a multiple of 100 are not
    reported. *)
Theorem train_gan_progress_lines (epochs batch_size : Z) (s : session) :
  (0 <= epochs)%Z -> (0 < batch_size)%Z ->
  exists s' lines,
    train_gan (generator the_models) (discriminator the_models)
              (gan the_models) epochs batch_size s = Ok s' /\
    stdout s' = stdout s ++ lines /\
    List.map p_epoch lines = List.filter printed_epoch (range epochs) /\
    length lines = Z.to_nat ((epochs + 99) / 100) /\
    (forall line, In line lines ->
       (0 <= p_epoch line < epochs)%Z /\ (p_epoch line mod 100 = 0)%Z).
Proof.
  intros He Hb. unfold train_gan.
  destruct (for_each_train_gan_effect (generator the_models)
              (discriminator the_models) (gan the_models) batch_size
              (range epochs) s Hb eq_refl)
    as (s' & Hrun & _ & _ & lines & Hout & Hlines).
  exists s', lines. split; [exact Hrun |]. split; [exact Hout |].
  split; [exact Hlines |]. split.
  - rewrite <- (length_map p_epoch), Hlines.
    rewrite <- (Z2Nat.id epochs) at 1 by exact He.
    rewrite printed_epochs_count. now rewrite Z2Nat.id by exact He.
  - intros line Hin.
    assert (Hp : In (p_epoch line) (List.filter printed_epoch (range epochs))).
    { rewrite <- Hlines. now apply in_map. }
    apply filter_In in Hp as [Hr Hp]. unfold range in Hr.
    apply in_map_iff in Hr as (k & Hk1 & Hk). apply in_seq in Hk.
    unfold printed_epoch in Hp. apply Z.eqb_eq in Hp. split; [lia | exact Hp].
Qed.

(** X8.  Each epoch draws three batches of [batch_size * 30] standard
    normal deviates (the noise of the real data and the two noise batches):
    after [epochs >= 0] epochs the random source stands
    [90 * batch_size * epochs] deviates further. *)
Theorem train_gan_random_draws (epochs batch_size : Z) (s : session) :
  (0 <= epochs)%Z -> (0 < batch_size)%Z ->
  exists s',
    train_gan (generator the_models) (discriminator the_models)
              (gan the_models) epochs batch_size s = Ok s' /\
    forall i,
      np_random s' i
      = np_random s (Z.to_nat (90 * batch_size * epochs) + i).
Proof.
  intros He Hb. unfold train_gan.
  destruct (for_each_train_gan_effect (generator the_models)
              (discriminator the_models) (gan the_models) batch_size
              (range epochs) s Hb eq_refl) as (s' & Hrun & _ & Hrng & _).
  exists s'. split; [exact Hrun |].
  intros i. rewrite Hrng, length_range. f_equal. nia.
Qed.

(** X9.  With a negative [batch_size], [train_gan] raises the [ValueError]
    of the first array construction as soon as there is an epoch to run,
    whatever the models; with no epoch to run ([epochs <= 0]) it returns the
    session as it was. *)
Theorem train_gan_negative_batch_size (g : layer) (d c : compiled)
    (epochs batch_size : Z) (s : session) :
  (batch_size < 0)%Z ->
  train_gan g d c epochs batch_size s
  = if (0 <? epochs)%Z then Raise ValueError else Ok s.
Proof.
  intros Hb. unfold train_gan, range.
  destruct (Z.ltb_spec 0 epochs) as [He | He].
  - destruct (Z.to_nat epochs) as [| n] eqn:En; [lia |].
    cbn [seq List.map for_each]. unfold train_gan_epoch.
    now rewrite generate_real_data_negative by exact Hb.
  - replace (Z.to_nat epochs) with 0 by lia. reflexivity.
Qed.

Lemma for_each_app {S : Type} (body : Z -> S -> result S) (xs ys : list Z)
    (s : S) :
  for_each body (xs ++ ys) s = s' ← for_each body xs s; for_each body ys s'.
Proof.
  revert s. induction xs as [| x xs IH]; intros s; cbn [app for_each].
  - reflexivity.
  - destruct (body x s) as [s1 | e]; cbn [mbind result_bind];
      [apply IH | reflexivity].
Qed.

(** The epoch number only decides whether a line is printed. *)
Lemma train_gan_epoch_same (g : layer) (d c : compiled) (batch_size : Z)
    (e e' : Z) (s t : session) :
  (0 < batch_size)%Z -> metrics d = [accuracy] ->
  same_training_state s t ->
  exists s' t',
    train_gan_epoch g d c batch_size e s = Ok s' /\
    train_gan_epoch g d c batch_size e' t = Ok t' /\
    same_training_state s' t'.
Proof.
  intros Hb Hm (Hst & Hd & Hg & Hr & Hc).
  destruct (train_gan_epoch_pos g d c batch_size e s Hb Hm)
    as (rs & gs & Hreal_s & _ & _ & Hrun_s).
  destruct (train_gan_epoch_pos g d c batch_size e' t Hb Hm)
    as (rt & gt & Hreal_t & _ & _ & Hrun_t).
  rewrite <- Hr, Hreal_s in Hreal_t. injection Hreal_t as <- <-.
  cbn zeta in Hrun_s, Hrun_t. rewrite <- Hst, <- Hd, <- Hg, <- Hc in Hrun_t.
  eexists _, _. split; [exact Hrun_s |]. split; [exact Hrun_t |].
  repeat split.
Qed.

Lemma for_each_train_gan_same (g : layer) (d c : compiled) (batch_size : Z)
    (xs ys : list Z) (s t : session) :
  (0 < batch_size)%Z -> metrics d = [accuracy] ->
  length xs = length ys -> same_training_state s t ->
  exists s' t',
    for_each (train_gan_epoch g d c batch_size) xs s = Ok s' /\
    for_each (train_gan_epoch g d c batch_size) ys t = Ok t' /\
    same_training_state s' t'.
Proof.
  intros Hb Hm. revert ys s t.
  induction xs as [| x xs IH]; intros [| y ys] s t Hlen Hsame;
    try discriminate Hlen.
  - exists s, t. repeat split; apply Hsame.
  - destruct (train_gan_epoch_same g d c batch_size x y s t Hb Hm Hsame)
      as (s1 & t1 & Hs & Ht & Hsame1).
    destruct (IH ys s1 t1 ltac:(now injection Hlen) Hsame1)
      as (s' & t' & Hs' & Ht' & Hsame').
    exists s', t'. cbn [for_each]. rewrite Hs, Ht. cbn [mbind result_bind].
    split; [exact Hs' | split; [exact Ht' | exact Hsame']].
Qed.

(** X10.  Training is resumable: on a positive batch size, a run of
    [e1 + e2] epochs and a run of [e1] epochs followed, from the session it
    leaves, by a run of [e2] epochs end with the same variables, the same
    optimizer states, the same random source and the same framework calls.
    Nothing but the printed epoch numbers depends on how the epochs are
    split over calls. *)
Theorem train_gan_resumes (e1 e2 batch_size : Z) (s : session) :
  (0 <= e1)%Z -> (0 <= e2)%Z -> (0 < batch_size)%Z ->
  exists s1 s2 s12,
    train_gan (generator the_models) (discriminator the_models)
              (gan the_models) e1 batch_size s = Ok s1 /\
    train_gan (generator the_models) (discriminator the_models)
              (gan the_models) e2 batch_size s1 = Ok s2 /\
    train_gan (generator the_models) (discriminator the_models)
              (gan the_models) (e1 + e2) batch_size s = Ok s12 /\
    same_training_state s12 s2.
Proof.
  intros H1 H2 Hb. unfold train_gan.
  assert (Hsplit : range (e1 + e2)
                   = range e1 ++ List.map Z.of_nat (seq (Z.to_nat e1) (Z.to_nat e2))).
  { unfold range. rewrite Z2Nat.inj_add by assumption.
    now rewrite seq_app, List.map_app. }
  destruct (for_each_train_gan (generator the_models)
              (discriminator the_models) (gan the_models) batch_size
              (range e1) s Hb eq_refl) as (s1 & Hrun1 & _).
  destruct (for_each_train_gan_same (generator the_models)
              (discriminator the_models) (gan the_models) batch_size
              (List.map Z.of_nat (seq (Z.to_nat e1) (Z.to_nat e2))) (range e2)
              s1 s1 Hb eq_refl) as (s12 & s2 & Hrun12 & Hrun2 & Hsame).
  { unfold range. now rewrite !length_map, !length_seq. }
  { repeat split. }
  exists s1, s2, s12. split; [exact Hrun1 |]. split; [exact Hrun2 |].
  split; [| exact Hsame].
  rewrite Hsplit, for_each_app, Hrun1. exact Hrun12.
Qed.

End GanRuns.

(** ** The models: shapes, variables, trainable flags *)

Section Models.
Import Keras.

Local Open Scope nat_scope.

(** X3.  Whatever variables they are built on and for every batch size
    [B]: the generator maps a noise batch of shape [(B, 30, 1)] to a batch
    of the same shape, the discriminator maps a batch of shape [(B, 30, 1)]
    to one value per sample, shape [(B, 1)], and the combined model, the
    discriminator applied to the generator's output, maps noise of shape
    [(B, 30, 1)] to shape [(B, 1)]. *)
Theorem gan_shapes_every_batch (next B : nat) :
  let m := fst (Gan.setup next) in
  apply (Gan.generator m) [[B; 30; 1]] = Ok [[B; 30; 1]] /\
  apply (net (Gan.discriminator m)) [[B; 30; 1]] = Ok [[B; 1]] /\
  apply (net (Gan.gan m)) [[B; 30; 1]] = Ok [[B; 1]] /\
  (fake ← apply (Gan.generator m) [[B; 30; 1]];
   apply (net (Gan.discriminator m)) fake)
  = apply (net (Gan.gan m)) [[B; 30; 1]].
Proof. repeat split; reflexivity. Qed.

(** X4.  Building the models creates fresh variables: from any first
    unused variable [next], the generator gets the 8 variables from [next]
    and the discriminator the 8 that follow, the encoder gets 10 and the
    decoder the 7 that follow; so the four models of the module, built one
    after the other, own 33 variables and share none. *)
Theorem models_own_fresh_variables (next : nat) :
  weights (Gan.generator (fst (Gan.setup next))) = seq next 8 /\
  weights (net (Gan.discriminator (fst (Gan.setup next)))) = seq (next + 8) 8 /\
  snd (Gan.setup next) = next + 16 /\
  weights (Vae.encoder (fst (Vae.setup next))) = seq next 10 /\
  weights (Vae.decoder (fst (Vae.setup next))) = seq (next + 10) 7 /\
  snd (Vae.setup next) = next + 17 /\
  NoDup (weights (Gan.generator Gan.the_models)
         ++ weights (net (Gan.discriminator Gan.the_models))
         ++ weights (Vae.encoder Vae.the_models)
         ++ weights (Vae.decoder Vae.the_models)).
Proof.
  unfold Gan.setup, Gan.build_generator, Gan.build_discriminator,
    Vae.setup, Vae.build_encoder, Vae.build_decoder,
    new_layer, mbind, build_bind, mret, build_ret.
  repeat split.
  - cbn. repeat (f_equal; try lia).
  - cbn. repeat (f_equal; try lia).
  - cbn. lia.
  - cbn. repeat (f_equal; try lia).
  - cbn. repeat (f_equal; try lia).
  - cbn. lia.
  - change (NoDup (seq 0 33)). apply NoDup_ListNoDup, seq_NoDup.
Qed.

Lemma set_trainable_weights (value : bool) :
  forall l, weights (set_trainable value l) = weights l.
Proof.
  fix IH 1. intros [config ws t | f | ls call t]; cbn; try reflexivity.
  induction ls as [| l ls IHls]; cbn; [reflexivity |].
  now rewrite IH, IHls.
Qed.

Lemma set_trainable_true_all :
  forall l, trainable_weights (set_trainable true l) = weights l.
Proof.
  fix IH 1. intros [config ws t | f | ls call t]; cbn; try reflexivity.
  induction ls as [| l ls IHls]; cbn; [reflexivity |].
  now rewrite IH, IHls.
Qed.

Lemma trainable_weights_incl :
  forall l v, In v (trainable_weights l) -> In v (weights l).
Proof.
  fix IH 1. intros [config ws t | f | ls call t] v; cbn.
  - now destruct t.
  - intros [].
  - destruct t; [| intros []].
    induction ls as [| l ls IHls]; cbn; [intros [] |].
    rewrite !in_app_iff. intros [Hv | Hv]; [left; now apply IH | right; now apply IHls].
Qed.

(** X5.  Assigning the [trainable] flag of any layer or model: set to
    [False], the layer has no trainable weight left; set to [True], all its
    variables are trainable; either way it keeps its variables and computes
    what it computed.  The trainable weights of a layer are always among
    its variables. *)
Theorem trainable_flag (l : layer) :
  trainable_weights (set_trainable false l) = [] /\
  trainable_weights (set_trainable true l) = weights l /\
  (forall value, weights (set_trainable value l) = weights l) /\
  (forall value args, apply (set_trainable value l) args = apply l args) /\
  (forall v, In v (trainable_weights l) -> In v (weights l)).
Proof.
  split; [now destruct l |].
  split; [apply set_trainable_true_all |].
  split; [intros value; apply set_trainable_weights |].
  split; [intros value args; now destruct l |].
  apply trainable_weights_incl.
Qed.

End Models.

Section DiscriminatorUpdate.
Import Keras Gan.
Context `{Backend}.

(** X11.  An update of the discriminator, [discriminator.train_on_batch],
    changes no weight of the generator and gives each of the discriminator's
    eight variables the value computed by the optimizer step, although the
    discriminator has been made non-trainable since it was compiled; an
    update of the combined model gives each of the generator's eight
    variables the value computed by its optimizer step. *)
Theorem updates_write_their_own_model (x y : Np.ndarray)
    (st : gmap var tensor) (o : optimizer_state) :
  Forall (fun v =>
            (train_on_batch (discriminator the_models) x y st o).1.1 !! v
            = st !! v)
         (weights (generator the_models)) /\
  Forall (fun v =>
            (train_on_batch (discriminator the_models) x y st o).1.1 !! v
            = Some (new_value
                      (optimizer_step (discriminator the_models) st o x y) v))
         (weights (net (discriminator the_models))) /\
  Forall (fun v =>
            (train_on_batch (gan the_models) x y st o).1.1 !! v
            = Some (new_value (optimizer_step (gan the_models) st o x y) v))
         (weights (generator the_models)).
Proof.
  repeat split; apply List.Forall_forall; intros v Hv.
  - apply train_on_batch_frame.
    change (trainable_weights (net (discriminator the_models))) with (seq 8 8).
    change (weights (generator the_models)) with (seq 0 8) in Hv.
    rewrite in_seq in *. lia.
  - apply train_on_batch_writes. exact Hv.
  - apply train_on_batch_writes. exact Hv.
Qed.

End DiscriminatorUpdate.

(** ** The VAE loss on finite tensors *)

Section VaeLossValues.
Import Keras Vae.

Local Open Scope R_scope.

Lemma kl_loss_finite (z_mean z_log_var : list (list R)) :
  kl_loss (finite_matrix z_mean) (finite_matrix z_log_var)
  = List.map (fun p => Finite (kl_sample p.1 p.2)) (combine z_mean z_log_var).
Proof.
  unfold finite_matrix. rewrite kl_loss_per_sample. revert z_log_var.
  induction z_mean as [| m z_mean IH]; intros [| v z_log_var];
    cbn [List.map combine]; try reflexivity.
  rewrite IH. f_equal. cbn [fst snd]. unfold kl_sample.
  replace (List.map kl_element (combine (List.map Finite m) (List.map Finite v)))
    with (List.map Finite
            (List.map (fun p : R * R => 1 + p.2 - p.1 * p.1 - Rtrigo_def.exp p.2)
                      (combine m v))).
  - now rewrite sum_finite.
  - clear. revert v. induction m as [| a m IH]; intros [| b v];
      cbn [List.map combine]; try reflexivity.
    rewrite IH. reflexivity.
Qed.

Lemma K_mean_finite (l : list R) :
  l <> [] ->
  K_mean (List.map Finite l) = Finite (total l / INR (length l)).
Proof.
  intros Hl. unfold K_mean. rewrite sum_finite, length_map.
  unfold of_nat, Float.div.
  destruct (Req_dec_T (INR (length l)) 0) as [E | _]; [| reflexivity].
  destruct l as [| a l]; [contradiction |].
  cbn [length] in E. rewrite S_INR in E. pose proof (pos_INR (length l)). lra.
Qed.

Lemma K_mean_empty : K_mean [] = NaN.
Proof.
  unfold K_mean, Float.div, Float.scale_inf. cbn.
  destruct (Req_dec_T 0 0) as [_ | E]; [reflexivity | contradiction].
Qed.

Lemma squared_errors_finite (xs ys : list R) :
  List.map Float.square
    (zip_with Float.sub (List.map Finite ys) (List.map Finite xs))
  = List.map Finite (squared_errors xs ys).
Proof.
  unfold squared_errors. revert ys.
  induction xs as [| x xs IH]; intros [| y ys]; cbn; try reflexivity.
  now rewrite <- IH.
Qed.

Lemma total_squared_errors_nonneg (xs ys : list R) :
  0 <= total (squared_errors xs ys).
Proof.
  unfold squared_errors, total.
  induction (combine xs ys) as [| [a b] l IH]; cbn [List.map fold_right fst snd].
  - lra.
  - pose proof (Rle_0_sqr (b - a)) as Hs. unfold Rsqr in Hs. lra.
Qed.

Lemma reconstruction_loss_finite (s s' : list nat) (xs ys : list R) :
  combine xs ys <> [] ->
  reconstruction_loss (finite_array s xs) (finite_array s' ys)
  = Finite (total (squared_errors xs ys) / INR (length (combine xs ys))
            * INR 30).
Proof.
  intros Hne. unfold reconstruction_loss, mean_squared_error, K_flatten.
  cbn [finite_array Np.data]. rewrite squared_errors_finite, K_mean_finite.
  - unfold squared_errors. rewrite length_map. reflexivity.
  - unfold squared_errors. now destruct (combine xs ys).
Qed.

End VaeLossValues.

Section VaeLossEdges.
Import Keras Vae.

Local Open Scope R_scope.

Lemma squared_errors_same (xs : list R) : total (squared_errors xs xs) = 0.
Proof.
  unfold squared_errors, total.
  induction xs as [| x xs IH]; cbn [combine List.map fold_right fst snd]; [reflexivity |].
  rewrite IH. lra.
Qed.

(** X13.  On a batch of [B >= 1] samples of 30 finite values each, the
    reconstruction term, the mean squared error over the [B * 30] flattened
    positions multiplied by 30, is the mean over the [B] samples of the sum
    of squared errors of a sample; on a perfect reconstruction (the output
    equal to the input) it is 0. *)
Theorem reconstruction_loss_per_sample (B : nat) (s s' : list nat)
    (inputs outputs : list R) :
  (0 < B)%nat ->
  length inputs = (B * 30)%nat -> length outputs = (B * 30)%nat ->
  reconstruction_loss (finite_array s inputs) (finite_array s' outputs)
    = Finite (total (squared_errors inputs outputs) / INR B) /\
  reconstruction_loss (finite_array s inputs) (finite_array s' inputs)
    = Finite 0.
Proof.
  intros HB Hi Ho.
  assert (Hlen : forall ys : list R, length ys = (B * 30)%nat ->
                            length (combine inputs ys) = (B * 30)%nat).
  { intros ys Hys. rewrite length_combine. lia. }
  assert (Hne : forall ys : list R,
                  length ys = (B * 30)%nat -> combine inputs ys <> []).
  { intros ys Hys E. apply (f_equal (@length _)) in E.
    rewrite Hlen in E by exact Hys. cbn in E. lia. }
  assert (HBR : 0 < INR B) by (apply lt_0_INR; exact HB).
  assert (H30 : INR 30 = 30) by (rewrite INR_IZR_INZ; reflexivity).
  split.
  - rewrite reconstruction_loss_finite by (apply Hne, Ho).
    rewrite Hlen by exact Ho. f_equal. rewrite mult_INR, H30. field. lra.
  - rewrite reconstruction_loss_finite by (apply Hne, Hi).
    rewrite squared_errors_same. f_equal. unfold Rdiv. lra.
Qed.

(** X14.  On an empty batch, one with no sample, the loss is not a
    number: with no input value, no output value and no row of mean or
    log-variance, [vae_loss] is NaN, the mean of no value. *)
Theorem vae_loss_empty_batch (inputs outputs : Np.ndarray) :
  Np.data inputs = [] -> Np.data outputs = [] ->
  reconstruction_loss inputs outputs = NaN /\
  kl_loss [] [] = [] /\
  vae_loss inputs outputs [] [] = NaN.
Proof.
  intros Hi Ho.
  assert (Hr : reconstruction_loss inputs outputs = NaN).
  { unfold reconstruction_loss, mean_squared_error, K_flatten.
    rewrite Hi, Ho. cbn [zip_with List.map]. now rewrite K_mean_empty. }
  split; [exact Hr |]. split; [reflexivity |].
  unfold vae_loss. cbn [kl_loss m_zip m_map K_sum_last zip_with List.map].
  apply K_mean_empty.
Qed.

Lemma combine_repeat {A B : Type} (a : A) (b : B) (n : nat) :
  combine (repeat a n) (repeat b n) = repeat (a, b) n.
Proof. induction n as [| n IH]; cbn; [reflexivity | now rewrite IH]. Qed.

Lemma kl_sample_prior (d : nat) : kl_sample (repeat 0 d) (repeat 0 d) = 0.
Proof.
  unfold kl_sample. rewrite combine_repeat.
  assert (Hs : fold_right Rplus 0
                 (List.map (fun p : R * R => 1 + p.2 - p.1 * p.1 - Rtrigo_def.exp p.2)
                           (repeat (0, 0) d)) = 0).
  { induction d as [| d IH]; cbn [repeat List.map fold_right fst snd];
      [reflexivity |].
    rewrite IH, exp_0. lra. }
  rewrite Hs. lra.
Qed.

(** X15.  At the standard normal prior, every mean and every log-variance
    being 0, the KL term of every sample is exactly 0, whatever the batch
    size and the latent dimension; and when moreover the output equals the
    input, a batch of [B >= 1] samples of 30 finite values, the whole loss
    is exactly 0. *)
Theorem loss_zero_at_prior_and_perfect_reconstruction (B d : nat)
    (s s' : list nat) (inputs : list R) :
  (0 < B)%nat -> length inputs = (B * 30)%nat ->
  kl_loss (finite_matrix (repeat (repeat 0 d) B))
          (finite_matrix (repeat (repeat 0 d) B))
    = repeat (Finite 0) B /\
  vae_loss (finite_array s inputs) (finite_array s' inputs)
           (finite_matrix (repeat (repeat 0 d) B))
           (finite_matrix (repeat (repeat 0 d) B))
    = Finite 0.
Proof.
  intros HB Hi.
  assert (Hkl : kl_loss (finite_matrix (repeat (repeat 0 d) B))
                        (finite_matrix (repeat (repeat 0 d) B))
                = repeat (Finite 0) B).
  { rewrite kl_loss_finite, combine_repeat. clear.
    induction B as [| B IH]; cbn [repeat List.map fst snd]; [reflexivity |].
    now rewrite IH, kl_sample_prior. }
  split; [exact Hkl |].
  assert (Hne : combine inputs inputs <> []).
  { intros E. apply (f_equal (@length _)) in E.
    rewrite length_combine in E. cbn in E. lia. }
  unfold vae_loss. rewrite Hkl, reconstruction_loss_finite by exact Hne.
  rewrite squared_errors_same.
  replace (0 / INR (length (combine inputs inputs)) * INR 30) with 0
    by (unfold Rdiv; lra).
  assert (Hmap : List.map (Float.add (Finite 0)) (repeat (Finite 0) B)
                 = List.map Finite (repeat 0 B)).
  { clear. induction B as [| B IH]; cbn [repeat List.map]; [reflexivity |].
    rewrite IH. cbn. now rewrite Rplus_0_r. }
  rewrite Hmap, K_mean_finite by (destruct B; [lia | discriminate]).
  f_equal.
  assert (Ht : total (repeat 0 B) = 0).
  { clear. unfold total. induction B as [| B IH]; cbn [repeat fold_right];
      [reflexivity | rewrite IH; lra]. }
  rewrite Ht. unfold Rdiv. lra.
Qed.

End VaeLossEdges.

Section VaeParameters.
Import Keras Vae.

(** X16.  For every positive sequence length [t], feature count [f] and
    latent dimension [d], and every batch size [B], on whatever variables
    they are built: the encoder built for input shape [(t, f)] maps a batch
    of shape [(B, t, f)] to a mean and a log-variance of shape [(B, d)], and
    the decoder built for output shape [(t, f)] maps a latent batch of shape
    [(B, d)] to a batch of shape [(B, t, f)]. *)
Theorem encoder_decoder_shapes (t f d B next : nat) :
  (0 < t)%nat -> (0 < f)%nat -> (0 < d)%nat ->
  apply (fst (build_encoder (t, f) d next)) [[B; t; f]]
    = Ok [[B; d]; [B; d]] /\
  apply (fst (build_decoder d (t, f) next)) [[B; d]] = Ok [[B; t; f]].
Proof.
  intros _ _ _.
  unfold build_encoder, build_decoder, new_layer, mbind, build_bind, mret,
    build_ret. cbn [fst apply]. unfold Input, shape_of. cbn [fst snd].
  rewrite !decide_True by reflexivity. split; reflexivity.
Qed.

End VaeParameters.

(** ** Instances of the further properties *)

Lemma train_gan_changes_only_its_models_witness :
  (0 < 1)%Z /\
  exists s',
    Gan.train_gan (Gan.generator Gan.the_models)
      (Gan.discriminator Gan.the_models) (Gan.gan Gan.the_models)
      3 1 null_session = Ok s' /\
    Gan.store s' !! 16%nat = Gan.store null_session !! 16%nat.
Proof.
  split; [lia |].
  destruct (train_gan_changes_only_its_models 3 1 null_session)
    as (s' & Hrun & Hframe & _); [lia |].
  exists s'. split; [exact Hrun |].
  apply Hframe. change (~ In 16%nat (seq 0 16)). rewrite in_seq. lia.
Defined.

Lemma train_gan_progress_lines_witness :
  (0 <= 250)%Z /\ (0 < 1)%Z /\
  exists s' lines,
    Gan.train_gan (Gan.generator Gan.the_models)
      (Gan.discriminator Gan.the_models) (Gan.gan Gan.the_models)
      250 1 null_session = Ok s' /\
    Gan.stdout s' = lines /\
    List.map Gan.p_epoch lines = [0; 100; 200]%Z.
Proof.
  split; [lia |]. split; [lia |].
  destruct (train_gan_progress_lines 250 1 null_session)
    as (s' & lines & Hrun & Hout & Hlines & _); [lia | lia |].
  exists s', lines. split; [exact Hrun |]. split; [exact Hout |].
  rewrite Hlines. reflexivity.
Defined.

Lemma train_gan_random_draws_witness :
  (0 <= 2)%Z /\ (0 < 1)%Z /\
  exists s',
    Gan.train_gan (Gan.generator Gan.the_models)
      (Gan.discriminator Gan.the_models) (Gan.gan Gan.the_models)
      2 1 null_session = Ok s' /\
    Gan.np_random s' 0%nat = Gan.np_random null_session 180%nat.
Proof.
  split; [lia |]. split; [lia |].
  destruct (train_gan_random_draws 2 1 null_session) as (s' & Hrun & Hrng);
    [lia | lia |].
  exists s'. split; [exact Hrun |]. rewrite Hrng. reflexivity.
Defined.

Lemma train_gan_negative_batch_size_witness :
  (-1 < 0)%Z /\
  Gan.train_gan (Gan.generator Gan.the_models)
    (Gan.discriminator Gan.the_models) (Gan.gan Gan.the_models)
    1 (-1) null_session = Raise ValueError.
Proof.
  split; [lia |].
  apply (train_gan_negative_batch_size (Gan.generator Gan.the_models)
           (Gan.discriminator Gan.the_models) (Gan.gan Gan.the_models)
           1 (-1) null_session).
  lia.
Defined.

Lemma train_gan_resumes_witness :
  (0 <= 1)%Z /\ (0 <= 2)%Z /\ (0 < 1)%Z /\
  exists s1 s2 s12,
    Gan.train_gan (Gan.generator Gan.the_models)
      (Gan.discriminator Gan.the_models) (Gan.gan Gan.the_models)
      1 1 null_session = Ok s1 /\
    Gan.train_gan (Gan.generator Gan.the_models)
      (Gan.discriminator Gan.the_models) (Gan.gan Gan.the_models)
      2 1 s1 = Ok s2 /\
    Gan.train_gan (Gan.generator Gan.the_models)
      (Gan.discriminator Gan.the_models) (Gan.gan Gan.the_models)
      3 1 null_session = Ok s12 /\
    Gan.store s12 = Gan.store s2.
Proof.
  split; [lia |]. split; [lia |]. split; [lia |].
  destruct (train_gan_resumes 1 2 1 null_session)
    as (s1 & s2 & s12 & H1 & H2 & H12 & Hsame & _); [lia | lia | lia |].
  exists s1, s2, s12. repeat split; assumption.
Defined.

Lemma reconstruction_loss_per_sample_witness :
  (0 < 1)%nat /\
  length (repeat 0%R 30) = (1 * 30)%nat /\
  Vae.reconstruction_loss (finite_array [1; 30; 1]%nat (repeat 0%R 30))
                          (finite_array [1; 30; 1]%nat (repeat 0%R 30))
  = Finite 0.
Proof.
  split; [lia |]. split; [reflexivity |].
  apply (reconstruction_loss_per_sample 1 [1; 30; 1]%nat [1; 30; 1]%nat
           (repeat 0%R 30) (repeat 0%R 30)); [lia | reflexivity | reflexivity].
Defined.

Lemma vae_loss_empty_batch_witness :
  Vae.vae_loss (finite_array [0; 30; 1]%nat []) (finite_array [0; 30; 1]%nat [])
               [] []
  = NaN.
Proof.
  apply (vae_loss_empty_batch (finite_array [0; 30; 1]%nat [])
           (finite_array [0; 30; 1]%nat [])); reflexivity.
Defined.

Lemma encoder_decoder_shapes_witness :
  (0 < 30)%nat /\
  Keras.apply (fst (Vae.build_decoder 10 (30, 1)%nat 0%nat)) [[4; 10]%nat]
  = Ok [[4; 30; 1]%nat].
Proof.
  split; [lia |].
  apply (encoder_decoder_shapes 30 1 10 4 0); lia.
Defined.

Lemma loss_zero_at_prior_and_perfect_reconstruction_witness :
  (0 < 2)%nat /\
  Vae.vae_loss (finite_array [2; 30; 1]%nat (repeat 1%R 60))
               (finite_array [2; 30; 1]%nat (repeat 1%R 60))
               (finite_matrix (repeat (repeat 0%R 10) 2))
               (finite_matrix (repeat (repeat 0%R 10) 2))
  = Finite 0.
Proof.
  split; [lia |].
  apply (loss_zero_at_prior_and_perfect_reconstruction 2 10
           [2; 30; 1]%nat [2; 30; 1]%nat (repeat 1%R 60));
    [lia | reflexivity].
Defined.
